(** * travelDesk247: the identity service (AuthService)

    A shallow embedding of [AuthService] (auth.service.ts) over an explicit
    model of the persistence collaborator, and the properties of
    registration, login, token validation and the OTP flows.

    Conventions:
    - times are milliseconds since the epoch ([Date.now()]), as [Z]; the
      clock is read once per call of the service ([now]), and the host's
      time zone enters through [local_tza];
    - a JavaScript object whose shape the code does not fix
      ([userDetails: any]) is a [gmap string value];
    - every call of the persistence collaborator may raise; which calls do
      is chosen by the environment of the call ([fault]);
    - bcrypt and jsonwebtoken are third-party libraries and enter as
      parameters ([Libraries]). *)

From stdpp Require Import base option list gmap strings pretty.
From Stdlib Require Import ZArith Lia.

Local Open Scope Z_scope.

(** ** Values, objects, rows *)

Inductive value : Type :=
| VStr (s : string)
| VNum (n : Z)
| VBool (b : bool)
| VConnect (id : string).  (* the nested literal [{ connect: { id } }] *)

#[global] Instance value_eq_dec : EqDecision value.
Proof. solve_decision. Defined.

Abbreviation obj := (gmap string value).

(** [CREATE TYPE "OtpType"] of the migration. *)
Inductive OtpType : Type :=
| EMAIL_VERIFICATION
| PHONE_VERIFICATION
| LOGIN
| PASSWORD_RESET.

#[global] Instance OtpType_eq_dec : EqDecision OtpType.
Proof. solve_decision. Defined.

(** A [users] row: the primary key and the remaining columns by name
    (["email"], ["password"], ["isVerified"], ...). *)
Record User : Type := mkUser {
  user_id : string;
  user_fields : obj
}.

(** An [agents] or [corporate_users] row. *)
Record Profile : Type := mkProfile {
  profile_id : string;
  profile_userId : string;
  profile_fields : obj
}.

Record OtpCode : Type := mkOtpCode {
  otp_id : string;
  otp_userId : string;
  otp_code : string;
  otp_type : OtpType;
  otp_expiresAt : Z;
  otp_verified : bool;
  otp_createdAt : Z
}.

(** A [sessions] row.  The column [userId] is what [session.create] was
    given: [None] when the caller left it out. *)
Record Session : Type := mkSession {
  session_id : string;
  session_userId : option string;
  session_token : string;
  session_expiresAt : Z;
  session_createdAt : Z
}.

Record Store : Type := mkStore {
  users : list User;
  agents : list Profile;
  corporateUsers : list Profile;
  otpCodes : list OtpCode;
  sessions : list Session
}.

(** ** Errors and the environment of a call *)

(** The calls of the persistence collaborator made by the service. *)
Inductive DbOp : Type :=
| UserCreate | UserFindUnique | UserUpdate
| AgentCreate | CorporateUserCreate
| OtpCodeCreate | OtpCodeFindFirst | OtpCodeUpdate
| SessionCreate | SessionDelete.

#[global] Instance DbOp_eq_dec : EqDecision DbOp.
Proof. solve_decision. Defined.

Inductive error : Type :=
| UnauthorizedException (message : string)
| StorageError (call : DbOp)          (* the collaborator failed *)
| ConstraintViolation (name : string) (* a constraint of the schema *)
| RecordNotFound (call : DbOp)        (* update/delete of a missing row *)
| BcryptError                         (* bcrypt called without a string *)
| JsonWebTokenError                   (* malformed token or bad signature *)
| TokenExpiredError.

Inductive result (A : Type) : Type :=
| Ok (a : A)
| Err (e : error).
Arguments Ok {A} a.
Arguments Err {A} e.

(** What one call of the service reads from outside the program. *)
Record Env : Type := mkEnv {
  now : Z;                 (* Date.now() *)
  random : Z;              (* Math.floor(Math.random() * 900000) *)
  salt : string;           (* the salt bcrypt.hash draws *)
  new_id : DbOp → string;  (* the key generated for a created row *)
  fault : DbOp → bool;     (* the collaborator calls that raise *)
  local_tza : Z → bool → Z (* LocalTZA(t, isUTC) of the host's time zone:
                              the offset of local time, in ms, at the UTC
                              time [t] (isUTC) or at the local time [t] *)
}.

(** The part of the schema the generated client enforces on the data of a
    create: whether [sessions.userId] may be left out, and which data the
    tables [users], [agents] and [corporate_users] admit (the names of the
    entries; the types of the values, and nested writes through relations
    other than [user], are not modelled). *)
Record Schema : Type := mkSchema {
  sessions_userId_nullable : bool;
  users_admits : gmap string value → bool;
  agents_admits : gmap string value → bool;
  corporateUsers_admits : gmap string value → bool
}.

(** [data] names only entries of [columns] and names every entry of
    [required]. *)
Definition admits (columns required : list string)
    (data : gmap string value) : bool :=
  bool_decide (dom data ⊆ (list_to_set columns : gset string))
  && bool_decide (Forall (λ k, is_Some (data !! k)) required).

(** [CREATE TABLE "users"] of the migration; required are the NOT NULL
    columns without a default ([id] and [updatedAt] are filled in by the
    client). *)
Definition users_columns : list string :=
  ["id"; "email"; "phone"; "password"; "firstName"; "lastName";
   "dateOfBirth"; "nationality"; "passportNumber"; "isActive";
   "isVerified"; "emailVerified"; "phoneVerified"; "createdAt";
   "updatedAt"].

Definition users_required : list string := ["email"; "firstName"; "lastName"].

(** [CREATE TABLE "agents"], with the relation [user] through which the
    service sets [userId]. *)
Definition agents_columns : list string :=
  ["id"; "userId"; "user"; "agentCode"; "department"; "accessLevel";
   "isActive"; "supervisorId"; "createdAt"; "updatedAt"].

Definition agents_required : list string := ["agentCode"].

(** [CREATE TABLE "corporate_users"], with the relation [user]. *)
Definition corporateUsers_columns : list string :=
  ["id"; "userId"; "user"; "companyId"; "employeeId"; "costCenter";
   "approvalLimit"; "isApprover"; "createdAt"; "updatedAt"].

Definition corporateUsers_required : list string := ["companyId"].

(** The migration: ["userId" TEXT NOT NULL] in [CREATE TABLE "sessions"],
    and the columns of the three tables. *)
Definition migration_schema : Schema :=
  {| sessions_userId_nullable := false;
     users_admits := admits users_columns users_required;
     agents_admits := admits agents_columns agents_required;
     corporateUsers_admits :=
       admits corporateUsers_columns corporateUsers_required |}.

(** ** Third-party libraries *)

Record JwtPayload : Type := mkJwtPayload {
  jwt_userId : string;
  jwt_iat : Z;             (* seconds *)
  jwt_exp : option Z       (* seconds *)
}.

Record Libraries : Type := mkLibraries {
  (* bcrypt.hash(data, 10), with the salt it drew *)
  bcrypt_hash : string → string → string;
  (* bcrypt.compare(data, encrypted) *)
  bcrypt_compare : string → string → bool;
  (* the compact serialisation of a payload signed with a secret *)
  jwt_encode : JwtPayload → string → string;
  (* parsing and signature check: [None] for a malformed token or a
     signature that does not verify under the secret *)
  jwt_decode : string → string → option JwtPayload
}.

(** ** A state and exception monad: [async] code over a store

    A raised exception keeps the writes made before it, as in the source:
    only a transaction undoes writes. *)

Definition M (S A : Type) : Type := S → result A * S.

Definition ret {S A : Type} (a : A) : M S A := λ s, (Ok a, s).

Definition throw {S A : Type} (e : error) : M S A := λ s, (Err e, s).

Definition bind {S A B : Type} (m : M S A) (k : A → M S B) : M S B :=
  λ s, match m s with
       | (Ok a, s') => k a s'
       | (Err e, s') => (Err e, s')
       end.

(** [try { m } catch (error) { h error }] *)
Definition try_catch {S A : Type} (m : M S A) (h : error → M S A) : M S A :=
  λ s, match m s with
       | (Ok a, s') => (Ok a, s')
       | (Err e, s') => h e s'
       end.

(** [try { m } catch (error) { log(error); throw error }] *)
Definition rethrow {S A : Type} (m : M S A) : M S A :=
  try_catch m throw.

Definition lift_result {S A : Type} (r : result A) : M S A := λ s, (r, s).

#[global] Instance M_ret (S : Type) : MRet (M S) := @ret S.

#[global] Instance M_bind (S : Type) : MBind (M S) :=
  λ A B k m, bind m k.

(** ** The persistence collaborator *)

Definition users_defaults : obj :=
  {[ "isActive" := VBool true; "isVerified" := VBool false ]}.

(** The primary key of a created row: the [id] of the data when it names
    one, a generated key otherwise. *)
Definition row_key (env : Env) (op : DbOp) (data : obj) : result string :=
  match data !! "id" with
  | None => Ok (new_id env op)
  | Some (VStr id) => Ok id
  | Some _ => Err (ConstraintViolation "id")
  end.

(** The row [user.create({ data })] inserts. *)
Definition user_row (env : Env) (data : obj) : result User :=
  match row_key env UserCreate data with
  | Ok id => Ok {| user_id := id;
                   user_fields := delete "id" data ∪ users_defaults |}
  | Err e => Err e
  end.

(** The row [agent.create] / [corporateUser.create] inserts: the relation
    [user: { connect: { id } }] becomes the column [userId]; every other
    entry of [data] but [id] is a column. *)
Definition profile_row (env : Env) (op : DbOp) (data : obj) : result Profile :=
  match data !! "user" with
  | Some (VConnect uid) =>
      match row_key env op data with
      | Ok id => Ok {| profile_id := id;
                       profile_userId := uid;
                       profile_fields := delete "id" (delete "user" data) |}
      | Err e => Err e
      end
  | _ => Err (ConstraintViolation "user")
  end.

(** The unique indexes of the migration: [users_pkey], [users_email_key]. *)
Definition users_unique (rows : list User) (u : User) : bool :=
  negb (bool_decide (Exists (λ x, user_id x = user_id u) rows))
  && match user_fields u !! "email" with
     | Some e =>
         negb (bool_decide
                 (Exists (λ x, user_fields x !! "email" = Some e) rows))
     | None => true
     end.

(** [agents_pkey], [agents_userId_key] and, for [agents] ([coded]),
    [agents_agentCode_key]; [corporate_users_pkey] and
    [corporate_users_userId_key]. *)
Definition profiles_unique (coded : bool) (rows : list Profile)
    (p : Profile) : bool :=
  negb (bool_decide (Exists (λ x, profile_id x = profile_id p) rows))
  && negb (bool_decide
             (Exists (λ x, profile_userId x = profile_userId p) rows))
  && match profile_fields p !! "agentCode" with
     | Some c =>
         negb (coded
               && bool_decide
                    (Exists (λ x, profile_fields x !! "agentCode" = Some c)
                            rows))
     | None => true
     end.

Record OtpCodeCreateInput : Type := mkOtpCodeCreateInput {
  oci_userId : string;
  oci_code : string;
  oci_type : OtpType;
  oci_expiresAt : Z
}.

Definition otp_row (env : Env) (d : OtpCodeCreateInput) : OtpCode :=
  {| otp_id := new_id env OtpCodeCreate;
     otp_userId := oci_userId d;
     otp_code := oci_code d;
     otp_type := oci_type d;
     otp_expiresAt := oci_expiresAt d;
     otp_verified := false;          (* DEFAULT false *)
     otp_createdAt := now env |}.    (* DEFAULT CURRENT_TIMESTAMP *)

Record SessionCreateInput : Type := mkSessionCreateInput {
  sci_userId : option string;
  sci_token : string;
  sci_expiresAt : Z
}.

Definition session_row (env : Env) (d : SessionCreateInput) : Session :=
  {| session_id := new_id env SessionCreate;
     session_userId := sci_userId d;
     session_token := sci_token d;
     session_expiresAt := sci_expiresAt d;
     session_createdAt := now env |}.

(** The constraints of [sessions.userId]: NOT NULL, and the foreign key
    [sessions_userId_fkey] into [users]. *)
Definition sessions_userId_ok (sch : Schema) (d : SessionCreateInput)
    (db : Store) : bool :=
  match sci_userId d with
  | None => sessions_userId_nullable sch
  | Some uid => bool_decide (Exists (λ u, user_id u = uid) (users db))
  end.

(** A write of one row. *)
Inductive Write : Type :=
| WUser (u : User)
| WAgent (p : Profile)
| WCorporateUser (p : Profile)
| WOtpCode (o : OtpCode)
| WSession (s : Session).

Definition apply_write (db : Store) (w : Write) : Store :=
  match w with
  | WUser u => mkStore (users db ++ [u]) (agents db) (corporateUsers db)
                       (otpCodes db) (sessions db)
  | WAgent p => mkStore (users db) (agents db ++ [p]) (corporateUsers db)
                        (otpCodes db) (sessions db)
  | WCorporateUser p => mkStore (users db) (agents db)
                                (corporateUsers db ++ [p])
                                (otpCodes db) (sessions db)
  | WOtpCode o => mkStore (users db) (agents db) (corporateUsers db)
                          (otpCodes db ++ [o]) (sessions db)
  | WSession s => mkStore (users db) (agents db) (corporateUsers db)
                          (otpCodes db) (sessions db ++ [s])
  end.

(** A create through the client [this.db]. *)
Definition db_create (env : Env) (op : DbOp) (w : Write) : M Store unit :=
  λ db, if fault env op then (Err (StorageError op), db)
        else (Ok tt, apply_write db w).

(** The unique index [sessions_token_key]. *)
Definition sessions_token_free (token : string) (db : Store) : bool :=
  negb (bool_decide (Exists (λ s, session_token s = token) (sessions db))).

(** [this.db.session.create({ data })] *)
Definition session_create (sch : Schema) (env : Env) (d : SessionCreateInput)
    : M Store Session :=
  if fault env SessionCreate then throw (StorageError SessionCreate)
  else λ db,
    if sessions_userId_ok sch d db
    then
      if sessions_token_free (sci_token d) db
      then (Ok (session_row env d),
            apply_write db (WSession (session_row env d)))
      else (Err (ConstraintViolation "sessions_token_key"), db)
    else (Err (ConstraintViolation "sessions.userId"), db).

(** [this.db.session.delete({ where: { token } })]: raises when no row has
    the token. *)
Definition session_delete (env : Env) (token : string) : M Store unit :=
  if fault env SessionDelete then throw (StorageError SessionDelete)
  else λ db,
    if bool_decide (Exists (λ s, session_token s = token) (sessions db))
    then (Ok tt,
          mkStore (users db) (agents db) (corporateUsers db) (otpCodes db)
                  (filter (λ s, session_token s ≠ token) (sessions db)))
    else (Err (RecordNotFound SessionDelete), db).

Definition user_by_email (db : Store) (email : string) : option User :=
  find (λ u, bool_decide (user_fields u !! "email" = Some (VStr email)))
       (users db).

Definition user_by_id (db : Store) (id : string) : option User :=
  find (λ u, bool_decide (user_id u = id)) (users db).

(** [this.db.user.findUnique({ where: { email } })] *)
Definition user_findUnique_email (env : Env) (email : string)
    : M Store (option User) :=
  if fault env UserFindUnique then throw (StorageError UserFindUnique)
  else λ db, (Ok (user_by_email db email), db).

(** A user loaded with [include: { agentProfile: true,
    corporateProfile: true }]. *)
Record UserWithProfiles : Type := mkUserWithProfiles {
  uwp_user : User;
  uwp_agentProfile : option Profile;
  uwp_corporateProfile : option Profile
}.

Definition load_profiles (db : Store) (u : User) : UserWithProfiles :=
  {| uwp_user := u;
     uwp_agentProfile :=
       find (λ p, bool_decide (profile_userId p = user_id u)) (agents db);
     uwp_corporateProfile :=
       find (λ p, bool_decide (profile_userId p = user_id u))
            (corporateUsers db) |}.

(** [this.db.user.findUnique({ where: { id }, include })] *)
Definition user_findUnique_id (env : Env) (id : string)
    : M Store (option UserWithProfiles) :=
  if fault env UserFindUnique then throw (StorageError UserFindUnique)
  else λ db,
    (Ok (load_profiles db <$> user_by_id db id), db).

(** [this.db.user.update({ where: { id }, data })]: raises when no row has
    the id; [data] overwrites the named columns. *)
Definition user_update (env : Env) (id : string) (data : obj)
    : M Store unit :=
  if fault env UserUpdate then throw (StorageError UserUpdate)
  else λ db,
    if bool_decide (Exists (λ u, user_id u = id) (users db))
    then (Ok tt,
          mkStore
            (map (λ u, if bool_decide (user_id u = id)
                       then mkUser (user_id u) (data ∪ user_fields u)
                       else u) (users db))
            (agents db) (corporateUsers db) (otpCodes db) (sessions db))
    else (Err (RecordNotFound UserUpdate), db).

(** The [where] of the two OTP lookups: code and type equal, expiry after
    now, not yet verified. *)
Definition otp_where (code : string) (type : OtpType) (t : Z)
    (o : OtpCode) : bool :=
  bool_decide (otp_code o = code)
  && bool_decide (otp_type o = type)
  && bool_decide (t < otp_expiresAt o)
  && negb (otp_verified o).

(** [this.db.otpCode.findFirst({ where })] *)
Definition otpCode_findFirst (env : Env) (cond : OtpCode → bool)
    : M Store (option OtpCode) :=
  if fault env OtpCodeFindFirst then throw (StorageError OtpCodeFindFirst)
  else λ db, (Ok (find cond (otpCodes db)), db).

Definition mark_verified (o : OtpCode) : OtpCode :=
  mkOtpCode (otp_id o) (otp_userId o) (otp_code o) (otp_type o)
            (otp_expiresAt o) true (otp_createdAt o).

(** [this.db.otpCode.update({ where: { id }, data: { verified: true } })] *)
Definition otpCode_update_verified (env : Env) (id : string)
    : M Store unit :=
  if fault env OtpCodeUpdate then throw (StorageError OtpCodeUpdate)
  else λ db,
    if bool_decide (Exists (λ o, otp_id o = id) (otpCodes db))
    then (Ok tt,
          mkStore (users db) (agents db) (corporateUsers db)
            (map (λ o, if bool_decide (otp_id o = id)
                       then mark_verified o else o) (otpCodes db))
            (sessions db))
    else (Err (RecordNotFound OtpCodeUpdate), db).

(** *** Transactions

    [this.db.$transaction(async (prisma) => body)]: the writes made through
    [prisma] are pending until the body returns and are dropped when it
    raises; a call made through [this.db] inside the body is outside the
    transaction and acts on the store at once. *)

Record TxState : Type := mkTx {
  pending : list Write;
  outer : Store
}.

(** A create through the transaction client [prisma]. *)
Definition tx_create (env : Env) (op : DbOp) (w : Write) : M TxState unit :=
  λ st, if fault env op then (Err (StorageError op), st)
        else (Ok tt, mkTx (pending st ++ [w]) (outer st)).

(** A computation run on [this.db] from inside a transaction body. *)
Definition via_outer {A : Type} (m : M Store A) : M TxState A :=
  λ st, let '(r, db') := m (outer st) in (r, mkTx (pending st) db').

Definition commit (st : TxState) : Store :=
  foldl apply_write (outer st) (pending st).

Definition transaction {A : Type} (body : M TxState A) : M Store A :=
  λ db, match body (mkTx [] db) with
        | (Ok a, st) => (Ok a, commit st)
        | (Err e, st) => (Err e, outer st)
        end.

(** [prisma.user.create({ data })] inside a transaction: the data has to
    be admitted by the schema and the row to respect the unique indexes,
    seen with the writes pending so far; the created row is returned. *)
Definition tx_user_create (sch : Schema) (env : Env) (data : obj)
    : M TxState User :=
  if fault env UserCreate then throw (StorageError UserCreate)
  else if users_admits sch data then
    match user_row env data with
    | Ok u =>
        λ st, if users_unique (users (commit st)) u
              then (Ok u, mkTx (pending st ++ [WUser u]) (outer st))
              else (Err (ConstraintViolation "users: unique"), st)
    | Err e => throw e
    end
  else throw (ConstraintViolation "users: argument").

(** [prisma.agent.create({ data })] and
    [prisma.corporateUser.create({ data })] inside a transaction. *)
Definition tx_agent_create (sch : Schema) (env : Env) (data : obj)
    : M TxState unit :=
  if fault env AgentCreate then throw (StorageError AgentCreate)
  else if agents_admits sch data then
    match profile_row env AgentCreate data with
    | Ok p =>
        λ st, if profiles_unique true (agents (commit st)) p
              then (Ok tt, mkTx (pending st ++ [WAgent p]) (outer st))
              else (Err (ConstraintViolation "agents: unique"), st)
    | Err e => throw e
    end
  else throw (ConstraintViolation "agents: argument").

Definition tx_corporateUser_create (sch : Schema) (env : Env) (data : obj)
    : M TxState unit :=
  if fault env CorporateUserCreate then throw (StorageError CorporateUserCreate)
  else if corporateUsers_admits sch data then
    match profile_row env CorporateUserCreate data with
    | Ok p =>
        λ st, if profiles_unique false (corporateUsers (commit st)) p
              then (Ok tt,
                    mkTx (pending st ++ [WCorporateUser p]) (outer st))
              else (Err (ConstraintViolation "corporate_users: unique"), st)
    | Err e => throw e
    end
  else throw (ConstraintViolation "corporate_users: argument").

(** ** AuthService *)

Definition SECRET : string := "YOUR_SECRET_KEY".

(** What [getUserInfo] resolves to: [User | Agent | CorporateUser]. *)
Inductive UserInfo : Type :=
| InfoCorporate (p : Profile)
| InfoAgent (p : Profile)
| InfoUser (u : UserWithProfiles).

(** The payload [jwt.sign(payload, secret, { expiresIn: '1h' })] signs at
    time [t]: issued at [t] in whole seconds, expiring 3600 s later. *)
Definition jwt_payload_1h (userId : string) (t : Z) : JwtPayload :=
  {| jwt_userId := userId;
     jwt_iat := t / 1000;
     jwt_exp := Some (t / 1000 + 3600) |}.

Section AuthService.

Variable sch : Schema.
Variable lib : Libraries.

(** [jwt.sign({ userId }, secret, { expiresIn: '1h' })] at time [t]. *)
Definition jwt_sign_1h (userId : string) (t : Z) : string :=
  jwt_encode lib (jwt_payload_1h userId t) SECRET.

(** [jwt.verify(token, secret)] at time [t]: the signature, then the
    embedded expiry. *)
Definition jwt_verify (token : string) (t : Z) : result JwtPayload :=
  match jwt_decode lib token SECRET with
  | None => Err JsonWebTokenError
  | Some p =>
      match jwt_exp p with
      | Some e => if bool_decide (e ≤ t / 1000) then Err TokenExpiredError
                  else Ok p
      | None => Ok p
      end
  end.

(** [bcrypt.hash(data, 10)]: raises unless [data] is a string. *)
Definition bcrypt_hash_js (env : Env) (data : option value) : result string :=
  match data with
  | Some (VStr p) => Ok (bcrypt_hash lib p (salt env))
  | _ => Err BcryptError
  end.

(** [bcrypt.compare(data, encrypted)]: raises unless [encrypted] is a
    string ([users.password] is nullable). *)
Definition bcrypt_compare_js (data : string) (encrypted : option value)
    : result bool :=
  match encrypted with
  | Some (VStr h) => Ok (bcrypt_compare lib data h)
  | _ => Err BcryptError
  end.

(** The data [generateToken] passes to [session.create]. *)
Definition generateToken_data (env : Env) (userId : string)
    : SessionCreateInput :=
  {| sci_userId := None;                 (* // userId: userId, *)
     sci_token := jwt_sign_1h userId (now env);
     sci_expiresAt := now env + 3600000 |}.

(** [jwt.sign] and [Date.now()] read the clock in the same call; both
    readings are [now env]. *)
Definition generateToken (env : Env) (userId : string) : M Store string :=
  let token := jwt_sign_1h userId (now env) in
  session ← session_create sch env (generateToken_data env userId);
  mret token.

Definition getUserInfo (env : Env) (token : string)
    : M Store (option UserInfo) :=
  try_catch
    (decoded ← lift_result (jwt_verify token (now env));
     user ← user_findUnique_id env (jwt_userId decoded);
     match user with
     | None => mret None
     | Some user =>
         match uwp_corporateProfile user with
         | Some c => mret (Some (InfoCorporate c))
         | None =>
             match uwp_agentProfile user with
             | Some a => mret (Some (InfoAgent a))
             | None => mret (Some (InfoUser user))
             end
         end
     end)
    (λ _, throw (UnauthorizedException "Invalid token")).

(** [Math.floor(100000 + Math.random() * 900000).toString()] *)
Definition otp_code_string (env : Env) : string :=
  pretty (100000 + random env).

(** [const expiresAt = new Date();
     expiresAt.setMinutes(expiresAt.getMinutes() + 15)]: the minutes are
    read and set on the local wall clock, so the new time value is
    [UTC(LocalTime(now) + 15 min)]. *)
Definition otp_expiry (env : Env) : Z :=
  let local := now env + local_tza env (now env) true in
  let moved := local + 15 * 60000 in
  moved - local_tza env moved false.

Definition userType_is (userDetails : obj) (t : string) : bool :=
  bool_decide (userDetails !! "userType" = Some (VStr t)).

(** The data [register] passes to [user.create]. *)
Definition register_user_data (userDetails : obj) (hashedPassword : string)
    : obj :=
  <["password" := VStr hashedPassword]> userDetails.

(** The data [register] passes to [agent.create] and
    [corporateUser.create]. *)
Definition register_profile_data (userDetails : obj) (newUserId : string)
    : obj :=
  <["user" := VConnect newUserId]> userDetails.

Definition register (env : Env) (userDetails : obj) : M Store string :=
  rethrow
    (transaction
       (hashedPassword ←
          lift_result (bcrypt_hash_js env (userDetails !! "password"));
        let userDetails := delete "username" userDetails in
        newUser ←
          tx_user_create sch env
            (register_user_data userDetails hashedPassword);
        (if userType_is userDetails "AGENT" then
           tx_agent_create sch env
             (register_profile_data userDetails (user_id newUser))
         else if userType_is userDetails "CORPORATE" then
           tx_corporateUser_create sch env
             (register_profile_data userDetails (user_id newUser))
         else mret tt);;
        tx_create env OtpCodeCreate
          (WOtpCode
             (otp_row env
                {| oci_userId := user_id newUser;
                   oci_code := otp_code_string env;
                   oci_type := EMAIL_VERIFICATION;
                   oci_expiresAt := otp_expiry env |}));;
        via_outer (generateToken env (user_id newUser)))).

Definition login (env : Env) (email password : string) : M Store string :=
  rethrow
    (user ← user_findUnique_email env email;
     match user with
     | None => throw (UnauthorizedException "Invalid credentials")
     | Some user =>
         isPasswordValid ←
           lift_result
             (bcrypt_compare_js password (user_fields user !! "password"));
         if isPasswordValid : bool then generateToken env (user_id user)
         else throw (UnauthorizedException "Invalid credentials")
     end).

Definition logout (env : Env) (token : string) : M Store unit :=
  try_catch (session_delete env token) (λ _, mret tt).

Definition refreshToken (env : Env) (token : string) : M Store string :=
  decoded ←
    try_catch (lift_result (jwt_verify token (now env)))
      (λ _, throw (UnauthorizedException "Invalid or expired token"));
  generateToken env (jwt_userId decoded).

Definition validateToken (env : Env) (token : string) : M Store bool :=
  try_catch
    (lift_result (jwt_verify token (now env));; mret true)
    (λ _, mret false).

Definition requestPasswordReset (env : Env) (email : string)
    : M Store unit :=
  rethrow
    (user ← user_findUnique_email env email;
     match user with
     | None => mret tt
     | Some user =>
         db_create env OtpCodeCreate
           (WOtpCode
              (otp_row env
                 {| oci_userId := user_id user;
                    oci_code := otp_code_string env;
                    oci_type := PASSWORD_RESET;
                    oci_expiresAt := otp_expiry env |}))
     end).

Definition verifyPasswordReset (env : Env) (token newPassword : string)
    : M Store unit :=
  rethrow
    (otpRecord ←
       otpCode_findFirst env (otp_where token PASSWORD_RESET (now env));
     match otpRecord with
     | None => throw (UnauthorizedException "Invalid or expired token")
     | Some otpRecord =>
         let hashedPassword := bcrypt_hash lib newPassword (salt env) in
         user_update env (otp_userId otpRecord)
           {[ "password" := VStr hashedPassword ]};;
         otpCode_update_verified env (otp_id otpRecord)
     end).

Definition verifyEmail (env : Env) (token : string) : M Store unit :=
  rethrow
    (otpRecord ←
       otpCode_findFirst env (otp_where token EMAIL_VERIFICATION (now env));
     match otpRecord with
     | None =>
         throw (UnauthorizedException "Invalid or expired verification token")
     | Some otpRecord =>
         user_update env (otp_userId otpRecord)
           {[ "isVerified" := VBool true ]};;
         otpCode_update_verified env (otp_id otpRecord)
     end).

End AuthService.

(** ** Test doubles and fixtures

    Stand-ins for the two libraries, used to run the service on concrete
    inputs: the digest is the plaintext behind a fixed prefix, and a token
    is the user id, a dot, and the issue time in seconds. *)

Module Fixture.

Definition stub_decode (token secret : string) : option JwtPayload :=
  if bool_decide (secret = SECRET) then
    if bool_decide (token = "u1.1000")
    then Some (mkJwtPayload "u1" 1000 (Some 4600))
    else if bool_decide (token = "u9.1000")
    then Some (mkJwtPayload "u9" 1000 (Some 4600))
    else None
  else None.

Definition stub_lib : Libraries :=
  {| bcrypt_hash := λ data _, "$2b$10$" +:+ data;
     bcrypt_compare := λ data h, bool_decide (h = "$2b$10$" +:+ data);
     jwt_encode := λ p _, jwt_userId p +:+ "." +:+ pretty (jwt_iat p);
     jwt_decode := stub_decode |}.

(** A schema in which [sessions.userId] is optional and every entry of
    the data of a create is admitted. *)
Definition lenient_schema : Schema :=
  {| sessions_userId_nullable := true;
     users_admits := λ _, true;
     agents_admits := λ _, true;
     corporateUsers_admits := λ _, true |}.

Definition ids (prefix : string) (op : DbOp) : string :=
  prefix +:+
  match op with
  | UserCreate => "-user"
  | AgentCreate => "-agent"
  | CorporateUserCreate => "-corp"
  | OtpCodeCreate => "-otp"
  | SessionCreate => "-session"
  | _ => ""
  end.

Definition no_fault (op : DbOp) : bool := false.

(** A call at time [t] (ms) that draws [r] and meets no storage fault. *)
Definition env_at (prefix : string) (t r : Z) : Env :=
  {| now := t; random := r; salt := "salt"; new_id := ids prefix;
     fault := no_fault; local_tza := λ _ _, 0 |}.

(** A call in which exactly the collaborator call [failing] raises. *)
Definition env_failing (failing : DbOp) (prefix : string) (t r : Z) : Env :=
  {| now := t; random := r; salt := "salt"; new_id := ids prefix;
     fault := λ op, bool_decide (op = failing); local_tza := λ _ _, 0 |}.

Definition empty_store : Store := mkStore [] [] [] [] [].

Definition alice : User :=
  mkUser "u1"
    {[ "email" := VStr "a@x.com"; "password" := VStr "$2b$10$secret123";
       "isVerified" := VBool false ]}.

Definition store_alice : Store := mkStore [alice] [] [] [] [].

Definition standard_details : obj :=
  {[ "email" := VStr "a@x.com"; "password" := VStr "secret123";
     "username" := VStr "alice" ]}.

Definition agent_details : obj :=
  {[ "email" := VStr "b@x.com"; "password" := VStr "secret123";
     "userType" := VStr "AGENT"; "agentCode" := VStr "A-17" ]}.

(** Alice with a session for the token ["u1.1000"]. *)
Definition store_session : Store :=
  mkStore [alice] [] [] []
    [mkSession "s1" None "u1.1000" 4600000 1000000].

Definition alice_agent : Profile :=
  mkProfile "a1" "u1" {[ "agentCode" := VStr "A-17" ]}.

Definition alice_corporate : Profile :=
  mkProfile "c1" "u1" {[ "companyId" := VStr "acme" ]}.

(** Alice with both role profiles. *)
Definition store_both_profiles : Store :=
  mkStore [alice] [alice_agent] [alice_corporate] [] [].

(** Alice with an agent profile only. *)
Definition store_agent_profile : Store :=
  mkStore [alice] [alice_agent] [] [] [].

Definition bob : User :=
  mkUser "u2"
    {[ "email" := VStr "b@x.com"; "password" := VStr "$2b$10$hunter2";
       "isVerified" := VBool true ]}.

(** Alice with one outstanding password-reset code. *)
Definition store_one_code : Store :=
  mkStore [alice] [] []
    [mkOtpCode "o1" "u1" "123456" PASSWORD_RESET 1900000 false 1000000] [].

(** Alice and Bob each requested a password reset and drew the same
    six digits. *)
Definition store_same_code : Store :=
  mkStore [alice; bob] [] []
    [mkOtpCode "o1" "u1" "123456" PASSWORD_RESET 1900000 false 1000000;
     mkOtpCode "o2" "u2" "123456" PASSWORD_RESET 1900500 false 1000500] [].

End Fixture.

(** ** AuthService: the remaining operations *)

(** [this.db.user.findUnique({ where: { id } })] *)
Definition user_findUnique (env : Env) (id : string) : M Store (option User) :=
  if fault env UserFindUnique then throw (StorageError UserFindUnique)
  else λ db, (Ok (user_by_id db id), db).

Definition changePassword (lib : Libraries) (env : Env)
    (token oldPassword newPassword : string) : M Store unit :=
  rethrow
    (decoded ← lift_result (jwt_verify lib token (now env));
     user ← user_findUnique env (jwt_userId decoded);
     match user with
     | None => throw (UnauthorizedException "Invalid credentials")
     | Some user =>
         matches ←
           lift_result
             (bcrypt_compare_js lib oldPassword
                (user_fields user !! "password"));
         if matches : bool then
           let hashedNewPassword :=
             bcrypt_hash lib newPassword (salt env) in
           user_update env (user_id user)
             {[ "password" := VStr hashedNewPassword ]}
         else throw (UnauthorizedException "Invalid credentials")
     end).

Definition resetPassword (env : Env) (email : string) : M Store unit :=
  requestPasswordReset env email.

(** ** OtpService: the two helpers *)

Module OtpService.

(** [findValidOtp(userId, type, code)] *)
Definition findValidOtp (env : Env) (userId : string) (type : OtpType)
    (code : string) : M Store (option OtpCode) :=
  rethrow
    (otpCode_findFirst env
       (λ o, bool_decide (otp_userId o = userId)
             && otp_where code type (now env) o)).

(** [markAsVerified(id)] *)
Definition markAsVerified (env : Env) (id : string) : M Store bool :=
  rethrow (otpCode_update_verified env id;; mret true).

End OtpService.

(** ** AuthController

    The handlers, after the validation pipe has run.  A handler answers
    with a value or raises; what it raises is an
    [InternalServerErrorException] of its own or an exception of the
    service let through as it is. *)

Inductive HttpException : Type :=
| InternalServerErrorException (message : string)
| Passed (e : error).

Inductive response (A : Type) : Type :=
| Reply (a : A)
| Raise (e : HttpException).
Arguments Reply {A} a.
Arguments Raise {A} e.

(** [error instanceof UnauthorizedException] *)
Definition instanceof_UnauthorizedException (e : error) : bool :=
  match e with
  | UnauthorizedException _ => true
  | _ => false
  end.

(** [error instanceof BadRequestException]: the service and the libraries
    under it raise no [BadRequestException]. *)
Definition instanceof_BadRequestException (e : error) : bool := false.

(** [try { return await body } catch (error) { log(error);
     if (passes(error)) throw error;
     throw new InternalServerErrorException(message) }] *)
Definition handler {A : Type} (body : M Store A) (passes : error → bool)
    (message : string) : Store → response A * Store :=
  λ db, match body db with
        | (Ok a, db') => (Reply a, db')
        | (Err e, db') =>
            if passes e then (Raise (Passed e), db')
            else (Raise (InternalServerErrorException message), db')
        end.

Module AuthController.

Definition login (sch : Schema) (lib : Libraries) (env : Env)
    (email password : string) : Store → response string * Store :=
  handler
    (token ← login sch lib env email password;
     if bool_decide (token = "")
     then throw (UnauthorizedException "Invalid credentials")
     else mret token)
    (λ _, false) "Failed to log in".

Definition logout (env : Env) (token : string)
    : Store → response unit * Store :=
  handler (logout env token) (λ _, false) "Failed to log out".

Definition refreshToken (sch : Schema) (lib : Libraries) (env : Env)
    (token : string) : Store → response string * Store :=
  handler
    (newToken ← refreshToken sch lib env token;
     if bool_decide (newToken = "")
     then throw (UnauthorizedException "Invalid token")
     else mret newToken)
    (λ _, false) "Failed to refresh token".

Definition register (sch : Schema) (lib : Libraries) (env : Env)
    (registerDto : obj) : Store → response string * Store :=
  handler (register sch lib env registerDto)
    instanceof_BadRequestException "Registration failed".

Definition changePassword (lib : Libraries) (env : Env)
    (token oldPassword newPassword : string)
    : Store → response unit * Store :=
  handler (changePassword lib env token oldPassword newPassword)
    instanceof_UnauthorizedException "Failed to change password".

Definition requestPasswordReset (env : Env) (email : string)
    : Store → response unit * Store :=
  handler (requestPasswordReset env email)
    (λ _, false) "Failed to request password reset".

Definition verifyPasswordReset (lib : Libraries) (env : Env)
    (token newPassword : string) : Store → response unit * Store :=
  handler (verifyPasswordReset lib env token newPassword)
    instanceof_BadRequestException "Failed to verify password reset".

Definition verifyEmail (env : Env) (token : string)
    : Store → response unit * Store :=
  handler (verifyEmail env token)
    instanceof_BadRequestException "Failed to verify email".

End AuthController.

(** The column updates of the two writes to [users]. *)
Definition set_fields (id : string) (data : obj) (l : list User)
    : list User :=
  map (λ u, if bool_decide (user_id u = id)
            then mkUser (user_id u) (data ∪ user_fields u) else u) l.

Definition consume (id : string) (l : list OtpCode) : list OtpCode :=
  map (λ o, if bool_decide (otp_id o = id) then mark_verified o else o) l.

(** ** Further fixtures *)

Module Scenario.

(** A registration payload that names columns of [users] itself. *)
Definition verified_details : obj :=
  {[ "id" := VStr "u7"; "email" := VStr "m@x.com";
     "password" := VStr "secret123"; "username" := VStr "mallory";
     "isVerified" := VBool true ]}.

(** Alice with an outstanding email-verification code. *)
Definition store_email_code : Store :=
  mkStore [Fixture.alice] [] []
    [mkOtpCode "o3" "u1" "654321" EMAIL_VERIFICATION 1900000 false 1000000]
    [].

(** America/New_York around the end of daylight saving time on
    2 November 2025, 06:00 UTC: local time is four hours behind UTC
    before that instant and five hours behind after it; a local time of
    the repeated hour is read as the earlier of its two instants. *)
Definition fall_back : Z := 1762063200000.

Definition new_york_tza (t : Z) (isUTC : bool) : Z :=
  if isUTC then
    if bool_decide (t < fall_back) then -14400000 else -18000000
  else
    if bool_decide (t < fall_back - 14400000) then -14400000 else -18000000.

(** A call on a host in that zone, with no storage fault. *)
Definition env_new_york (prefix : string) (t r : Z) : Env :=
  {| now := t; random := r; salt := "salt"; new_id := Fixture.ids prefix;
     fault := Fixture.no_fault; local_tza := new_york_tza |}.

End Scenario.

(** ** Vocabulary of the properties *)

(** The signature of [token] verifies and its embedded expiry, if any, has
    not passed at time [t]. *)
Definition token_valid (lib : Libraries) (token : string) (t : Z) : Prop :=
  ∃ p, jwt_decode lib token SECRET = Some p
       ∧ ∀ e, jwt_exp p = Some e → t / 1000 < e.

(** The common shape of [verifyEmail] and [verifyPasswordReset]: look up
    an unexpired, unverified row of the type by its code, update the owner
    with [data], mark the row verified. *)
Definition verify_otp (env : Env) (code : string) (type : OtpType)
    (message : string) (data : obj) : M Store unit :=
  rethrow
    (otpRecord ← otpCode_findFirst env (otp_where code type (now env));
     match otpRecord with
     | None => throw (UnauthorizedException message)
     | Some otpRecord =>
         user_update env (otp_userId otpRecord) data;;
         otpCode_update_verified env (otp_id otpRecord)
     end).

(** A verification of [code] that took the store from [db] to [db']
    consumed one row: it matched a row [r] that was unverified and
    unexpired; every row of [db'] with the id of [r] is verified; no later
    lookup, whatever its code, type and time, returns a row with that id;
    and the call [again] (the same flow on the same code) is refused with
    [message] unless another row of [db] still matches. *)
Definition accepted_once (type : OtpType) (message : string)
    (again : Env → M Store unit) (env : Env) (code : string)
    (db db' : Store) : Prop :=
  ∃ r : OtpCode,
    find (otp_where code type (now env)) (otpCodes db) = Some r
    ∧ otp_code r = code
    ∧ otp_type r = type
    ∧ otp_verified r = false
    ∧ now env < otp_expiresAt r
    ∧ (∀ o, o ∈ otpCodes db' → otp_id o = otp_id r → otp_verified o = true)
    ∧ (∀ code' type' t' o,
         find (otp_where code' type' t') (otpCodes db') = Some o →
         otp_id o ≠ otp_id r)
    ∧ (∀ env',
         fault env' OtpCodeFindFirst = false →
         (∀ o, o ∈ otpCodes db → otp_id o ≠ otp_id r →
               otp_where code type (now env') o = false) →
         again env' db' = (Err (UnauthorizedException message), db')).

(** The outcome [run] of an operation that issues a token, started in
    [db]: when it returns a token it has added exactly one [sessions] row,
    holding that token, an expiry one hour after now and no user id; when
    it raises, [sessions] is as before. *)
Definition issues_session_without_user (env : Env)
    (run : result string * Store) (db : Store) : Prop :=
  match run with
  | (Ok tok, db') =>
      sessions db'
      = sessions db ++
        [ {| session_id := new_id env SessionCreate;
             session_userId := None;
             session_token := tok;
             session_expiresAt := now env + 3600000;
             session_createdAt := now env |} ]
  | (Err _, db') => sessions db' = sessions db
  end.

(** The rows a registration commits, for a payload [userDetails] whose
    password is the string [p]. *)
Definition payload_key (env : Env) (op : DbOp) (userDetails : obj)
    : string :=
  match userDetails !! "id" with
  | Some (VStr id) => id
  | _ => new_id env op
  end.

Definition registered_user (lib : Libraries) (env : Env) (userDetails : obj)
    (p : string) : User :=
  {| user_id := payload_key env UserCreate userDetails;
     user_fields :=
       delete "id"
         (register_user_data (delete "username" userDetails)
            (bcrypt_hash lib p (salt env)))
       ∪ users_defaults |}.

Definition registered_profile (env : Env) (op : DbOp) (userDetails : obj)
    : Profile :=
  {| profile_id := payload_key env op userDetails;
     profile_userId := payload_key env UserCreate userDetails;
     profile_fields :=
       delete "id" (delete "user" (delete "username" userDetails)) |}.

Definition registered_otp (env : Env) (userDetails : obj) : OtpCode :=
  otp_row env
    {| oci_userId := payload_key env UserCreate userDetails;
       oci_code := otp_code_string env;
       oci_type := EMAIL_VERIFICATION;
       oci_expiresAt := otp_expiry env |}.

Definition registered_session (lib : Libraries) (env : Env)
    (userDetails : obj) : Session :=
  session_row env
    (generateToken_data lib env (payload_key env UserCreate userDetails)).

(** * Properties *)

Ltac unfold_M :=
  unfold rethrow, try_catch, lift_result, mbind, M_bind, bind, mret, M_ret,
         ret, throw in *.

(** ** Lists *)

Lemma filter_Forall_id {A : Type} (P : A → Prop) `{!∀ x, Decision (P x)}
    (l : list A) :
  Forall P l → filter P l = l.
Proof.
  induction 1 as [|x l Hx _ IH]; [done|].
  rewrite filter_cons_True by done. by rewrite IH.
Qed.

Lemma string_length_app (s1 s2 : string) :
  String.length (s1 +:+ s2) = (String.length s1 + String.length s2)%nat.
Proof. induction s1 as [|c s1 IH]; simpl; [done|]. by rewrite IH. Qed.

Lemma stub_hash_not_identity (data s : string) :
  bcrypt_hash Fixture.stub_lib data s ≠ data.
Proof.
  simpl. intros Heq. apply (f_equal String.length) in Heq.
  rewrite string_length_app in Heq. simpl in Heq. lia.
Qed.

(** ** The monad *)

Lemma rethrow_id {S A : Type} (m : M S A) (s : S) : rethrow m s = m s.
Proof. unfold_M. destruct (m s) as [[a|e] s']; reflexivity. Qed.

(** ** Token issuance *)

Lemma generateToken_eq (sch : Schema) (lib : Libraries) (env : Env)
    (userId : string) (db : Store) :
  generateToken sch lib env userId db =
    if fault env SessionCreate then (Err (StorageError SessionCreate), db)
    else if sessions_userId_nullable sch then
      if sessions_token_free (jwt_sign_1h lib userId (now env)) db
      then
        (Ok (jwt_sign_1h lib userId (now env)),
         apply_write db
           (WSession (session_row env (generateToken_data lib env userId))))
      else (Err (ConstraintViolation "sessions_token_key"), db)
    else (Err (ConstraintViolation "sessions.userId"), db).
Proof.
  unfold generateToken, session_create, sessions_userId_ok. unfold_M.
  destruct (fault env SessionCreate); [reflexivity|]. simpl.
  destruct (sessions_userId_nullable sch); [|reflexivity].
  destruct (sessions_token_free _ db); reflexivity.
Qed.

Lemma generateToken_Err (sch : Schema) (lib : Libraries) (env : Env)
    (userId : string) (db db' : Store) (e : error) :
  generateToken sch lib env userId db = (Err e, db') → db' = db.
Proof.
  rewrite generateToken_eq.
  destruct (fault env SessionCreate); [congruence|].
  destruct (sessions_userId_nullable sch); [|congruence].
  destruct (sessions_token_free _ db); congruence.
Qed.

Lemma generateToken_Ok (sch : Schema) (lib : Libraries) (env : Env)
    (userId tok : string) (db db' : Store) :
  generateToken sch lib env userId db = (Ok tok, db') →
  sessions_userId_nullable sch = true
  ∧ fault env SessionCreate = false
  ∧ sessions_token_free tok db = true
  ∧ tok = jwt_sign_1h lib userId (now env)
  ∧ db' = apply_write db
            (WSession (session_row env (generateToken_data lib env userId))).
Proof.
  rewrite generateToken_eq.
  destruct (fault env SessionCreate); [congruence|].
  destruct (sessions_userId_nullable sch); [|congruence].
  destruct (sessions_token_free _ db) eqn:Hfree; [|congruence].
  intros [= <- <-]. auto.
Qed.

Lemma generateToken_migration (lib : Libraries) (env : Env)
    (userId : string) (db : Store) :
  ∃ e, generateToken migration_schema lib env userId db = (Err e, db).
Proof.
  rewrite generateToken_eq. simpl.
  destruct (fault env SessionCreate); eauto.
Qed.

(** ** Login *)

Lemma login_unknown_email (sch : Schema) (lib : Libraries) (env : Env)
    (email password : string) (db : Store) :
  fault env UserFindUnique = false →
  user_by_email db email = None →
  login sch lib env email password db
  = (Err (UnauthorizedException "Invalid credentials"), db).
Proof.
  intros Hread Hnone. unfold login. rewrite rethrow_id.
  unfold user_findUnique_email. unfold_M. rewrite Hread, Hnone. reflexivity.
Qed.

Lemma login_known_email (sch : Schema) (lib : Libraries) (env : Env)
    (email password h : string) (user : User) (db : Store) :
  fault env UserFindUnique = false →
  user_by_email db email = Some user →
  user_fields user !! "password" = Some (VStr h) →
  login sch lib env email password db
  = if bcrypt_compare lib password h
    then generateToken sch lib env (user_id user) db
    else (Err (UnauthorizedException "Invalid credentials"), db).
Proof.
  intros Hread Hsome Hpw. unfold login. rewrite rethrow_id.
  unfold user_findUnique_email, bcrypt_compare_js. unfold_M.
  rewrite Hread, Hsome, Hpw.
  destruct (bcrypt_compare lib password h); reflexivity.
Qed.

(** C3. The two failures of Login are as specified: no user row with the
    email, and a password that does not verify against the stored hash,
    both raise [UnauthorizedException("Invalid credentials")] and write
    nothing.  With an email that exists and a password that verifies,
    however, Login returns no token under the repository's schema: the
    session row is written without [userId], which [sessions] declares
    NOT NULL, so the insert is refused and Login raises, whatever the
    store and the time. *)
Theorem login_valid_credentials_raise
    (lib : Libraries) (env : Env) (email password h : string) (user : User)
    (db : Store)
    (Hread : fault env UserFindUnique = false)
    (Hinsert : fault env SessionCreate = false)
    (Hfound : user_by_email db email = Some user)
    (Hstored : user_fields user !! "password" = Some (VStr h)) :
  (bcrypt_compare lib password h = true →
   login migration_schema lib env email password db
   = (Err (ConstraintViolation "sessions.userId"), db))
  ∧ (bcrypt_compare lib password h = false →
     login migration_schema lib env email password db
     = (Err (UnauthorizedException "Invalid credentials"), db))
  ∧ (∀ email',
       user_by_email db email' = None →
       login migration_schema lib env email' password db
       = (Err (UnauthorizedException "Invalid credentials"), db))
  ∧ ∀ tok db',
      login migration_schema lib env email password db ≠ (Ok tok, db').
Proof.
  rewrite (login_known_email _ _ _ _ _ h user) by done.
  rewrite generateToken_eq, Hinsert. simpl.
  split; [by intros ->|]. split; [by intros ->|].
  split; [intros email' Hnone; by apply login_unknown_email|].
  intros tok db'. by destruct (bcrypt_compare lib password h).
Qed.

(** C3 at the failing input: Alice logs in with her email and her
    password. *)
Lemma login_valid_credentials_raise_witness :
  login migration_schema Fixture.stub_lib (Fixture.env_at "c1" 1000000 5)
    "a@x.com" "secret123" Fixture.store_alice
  = (Err (ConstraintViolation "sessions.userId"), Fixture.store_alice)
  ∧ login migration_schema Fixture.stub_lib (Fixture.env_at "c1" 1000000 5)
      "a@x.com" "wrong" Fixture.store_alice
    = (Err (UnauthorizedException "Invalid credentials"),
       Fixture.store_alice).
Proof.
  pose proof (login_valid_credentials_raise Fixture.stub_lib
                (Fixture.env_at "c1" 1000000 5) "a@x.com" "secret123"
                "$2b$10$secret123" Fixture.alice Fixture.store_alice
                eq_refl eq_refl ltac:(vm_compute; reflexivity)
                ltac:(vm_compute; reflexivity)) as (Hright & _).
  pose proof (login_valid_credentials_raise Fixture.stub_lib
                (Fixture.env_at "c1" 1000000 5) "a@x.com" "wrong"
                "$2b$10$secret123" Fixture.alice Fixture.store_alice
                eq_refl eq_refl ltac:(vm_compute; reflexivity)
                ltac:(vm_compute; reflexivity)) as (_ & Hwrong & _).
  split.
  - apply Hright. vm_compute. reflexivity.
  - apply Hwrong. vm_compute. reflexivity.
Defined.

(** ** Token validation, logout, profile lookup *)

Lemma jwt_verify_Ok (lib : Libraries) (token : string) (t : Z)
    (p : JwtPayload) :
  jwt_verify lib token t = Ok p
  ↔ jwt_decode lib token SECRET = Some p
    ∧ ∀ e, jwt_exp p = Some e → t / 1000 < e.
Proof.
  unfold jwt_verify.
  destruct (jwt_decode lib token SECRET) as [q|];
    [|split; [done|intros [? _]; done]].
  destruct (jwt_exp q) as [e|] eqn:Hexp.
  - case_bool_decide as Hle.
    + split; [done|]. intros [[= ->] Hlt]. specialize (Hlt _ Hexp). lia.
    + split.
      * intros [= ->]. split; [done|]. intros e' He'.
        rewrite Hexp in He'. injection He' as <-. lia.
      * intros [[= ->] _]. done.
  - split.
    + intros [= ->]. split; [done|]. intros e' He'. congruence.
    + intros [[= ->] _]. done.
Qed.

Lemma validateToken_eq (lib : Libraries) (env : Env) (token : string)
    (db : Store) :
  validateToken lib env token db
  = (Ok (match jwt_verify lib token (now env) with
         | Ok _ => true
         | Err _ => false
         end), db).
Proof.
  unfold validateToken. unfold_M.
  destruct (jwt_verify lib token (now env)); reflexivity.
Qed.

(** C6. ValidateToken never raises: on every string and every store it
    returns a boolean, [true] exactly when the signature verifies and the
    embedded expiry has not passed, [false] otherwise; the boolean does not
    depend on the store and the store is left as it was. *)
Theorem validateToken_total_and_stateless
    (lib : Libraries) (env : Env) (token : string) (db : Store) :
  ∃ b : bool,
    validateToken lib env token db = (Ok b, db)
    ∧ (b = true ↔ token_valid lib token (now env))
    ∧ ∀ db2 : Store, validateToken lib env token db2 = (Ok b, db2).
Proof.
  exists (match jwt_verify lib token (now env) with
          | Ok _ => true
          | Err _ => false
          end).
  split; [apply validateToken_eq|]. split; [|intros; apply validateToken_eq].
  unfold token_valid.
  destruct (jwt_verify lib token (now env)) as [p|e] eqn:Hv.
  - split; [|done]. intros _. exists p. by apply jwt_verify_Ok.
  - split; [done|]. intros [p Hp]. apply jwt_verify_Ok in Hp. congruence.
Qed.

Lemma logout_eq (env : Env) (token : string) (db : Store) :
  logout env token db
  = (Ok tt,
     if fault env SessionDelete then db
     else mkStore (users db) (agents db) (corporateUsers db) (otpCodes db)
                  (filter (λ s, session_token s ≠ token) (sessions db))).
Proof.
  unfold logout, session_delete. unfold_M.
  destruct (fault env SessionDelete); [reflexivity|].
  case_bool_decide as Hex; [reflexivity|].
  f_equal. destruct db as [us ags cs os ss]; simpl in *. f_equal.
  symmetry. apply filter_Forall_id.
  apply Forall_forall. intros s Hs Heq. apply Hex.
  apply Exists_exists. eauto.
Qed.

Lemma logout_keeps_users (env : Env) (token : string) (db : Store) :
  users (snd (logout env token db)) = users db
  ∧ agents (snd (logout env token db)) = agents db
  ∧ corporateUsers (snd (logout env token db)) = corporateUsers db.
Proof.
  rewrite logout_eq. simpl. destruct (fault env SessionDelete); done.
Qed.

Lemma getUserInfo_eq (lib : Libraries) (env : Env) (token : string)
    (db : Store) :
  getUserInfo lib env token db
  = match jwt_verify lib token (now env) with
    | Err _ => (Err (UnauthorizedException "Invalid token"), db)
    | Ok decoded =>
        if fault env UserFindUnique
        then (Err (UnauthorizedException "Invalid token"), db)
        else
          (Ok (match user_by_id db (jwt_userId decoded) with
               | None => None
               | Some u =>
                   Some (match uwp_corporateProfile (load_profiles db u) with
                         | Some c => InfoCorporate c
                         | None =>
                             match uwp_agentProfile (load_profiles db u) with
                             | Some a => InfoAgent a
                             | None => InfoUser (load_profiles db u)
                             end
                         end)
               end), db)
    end.
Proof.
  unfold getUserInfo, user_findUnique_id. unfold_M.
  destruct (jwt_verify lib token (now env)) as [p|e]; [|reflexivity].
  destruct (fault env UserFindUnique); [reflexivity|].
  destruct (user_by_id db (jwt_userId p)) as [u|]; [|reflexivity]. simpl.
  destruct (find _ (corporateUsers db)); [reflexivity|].
  destruct (find _ (agents db)); reflexivity.
Qed.

Lemma getUserInfo_same_users (lib : Libraries) (env : Env) (token : string)
    (db1 db2 : Store) :
  users db1 = users db2 →
  agents db1 = agents db2 →
  corporateUsers db1 = corporateUsers db2 →
  fst (getUserInfo lib env token db1) = fst (getUserInfo lib env token db2).
Proof.
  intros Hu Ha Hc. rewrite !getUserInfo_eq.
  unfold user_by_id, load_profiles. rewrite Hu, Ha, Hc.
  destruct (jwt_verify lib token (now env)); [|reflexivity].
  destruct (fault env UserFindUnique); reflexivity.
Qed.

(** C7. Logout always succeeds and, unless the store faults, removes the
    session rows of the token; for a token whose signature verifies and
    whose expiry has not passed at a later time, ValidateToken still
    returns [true] after the logout, the token still decodes, and
    GetUserInfo answers as it did before the logout. *)
Theorem logout_does_not_invalidate_token
    (lib : Libraries) (env env' : Env) (token : string) (db : Store)
    (Hvalid : token_valid lib token (now env')) :
  ∃ db1 : Store,
    logout env token db = (Ok tt, db1)
    ∧ (fault env SessionDelete = false →
       sessions db1 = filter (λ s, session_token s ≠ token) (sessions db))
    ∧ validateToken lib env' token db = (Ok true, db)
    ∧ validateToken lib env' token db1 = (Ok true, db1)
    ∧ (∃ p, jwt_verify lib token (now env') = Ok p)
    ∧ fst (getUserInfo lib env' token db1)
      = fst (getUserInfo lib env' token db).
Proof.
  destruct Hvalid as [p Hp]. apply jwt_verify_Ok in Hp.
  exists (snd (logout env token db)).
  split; [by rewrite logout_eq|].
  split; [intros Hf; rewrite logout_eq, Hf; reflexivity|].
  rewrite !validateToken_eq, Hp.
  split; [done|]. split; [done|]. split; [eauto|].
  destruct (logout_keeps_users env token db) as (Hu & Ha & Hc).
  by apply getUserInfo_same_users.
Qed.

Lemma logout_does_not_invalidate_token_witness :
  ∃ db1 : Store,
    logout (Fixture.env_at "c2" 1500000 0) "u1.1000" Fixture.store_session
    = (Ok tt, db1)
    ∧ (fault (Fixture.env_at "c2" 1500000 0) SessionDelete = false →
       sessions db1
       = filter (λ s, session_token s ≠ "u1.1000")
                (sessions Fixture.store_session))
    ∧ validateToken Fixture.stub_lib (Fixture.env_at "c3" 2000000 0)
        "u1.1000" Fixture.store_session
      = (Ok true, Fixture.store_session)
    ∧ validateToken Fixture.stub_lib (Fixture.env_at "c3" 2000000 0)
        "u1.1000" db1
      = (Ok true, db1)
    ∧ (∃ p, jwt_verify Fixture.stub_lib "u1.1000"
              (now (Fixture.env_at "c3" 2000000 0)) = Ok p)
    ∧ fst (getUserInfo Fixture.stub_lib (Fixture.env_at "c3" 2000000 0)
             "u1.1000" db1)
      = fst (getUserInfo Fixture.stub_lib (Fixture.env_at "c3" 2000000 0)
               "u1.1000" Fixture.store_session).
Proof.
  apply (logout_does_not_invalidate_token Fixture.stub_lib
           (Fixture.env_at "c2" 1500000 0) (Fixture.env_at "c3" 2000000 0)
           "u1.1000" Fixture.store_session).
  exists (mkJwtPayload "u1" 1000 (Some 4600)).
  split; [vm_compute; reflexivity|].
  intros e [= <-]. vm_compute. reflexivity.
Defined.

(** C8. GetUserInfo raises [UnauthorizedException("Invalid token")] on a
    token that does not decode; on a token that decodes it loads the user
    of the decoded id with both role profiles and returns none when there
    is no such user row, else the corporate profile when present, else
    the agent profile when present, else the user. *)
Theorem getUserInfo_precedence
    (lib : Libraries) (env : Env) (token : string) (db : Store) :
  (∀ e, jwt_verify lib token (now env) = Err e →
        getUserInfo lib env token db
        = (Err (UnauthorizedException "Invalid token"), db))
  ∧ (∀ decoded,
       jwt_verify lib token (now env) = Ok decoded →
       fault env UserFindUnique = false →
       (user_by_id db (jwt_userId decoded) = None →
        getUserInfo lib env token db = (Ok None, db))
       ∧ (∀ u c,
            user_by_id db (jwt_userId decoded) = Some u →
            uwp_corporateProfile (load_profiles db u) = Some c →
            getUserInfo lib env token db = (Ok (Some (InfoCorporate c)), db))
       ∧ (∀ u a,
            user_by_id db (jwt_userId decoded) = Some u →
            uwp_corporateProfile (load_profiles db u) = None →
            uwp_agentProfile (load_profiles db u) = Some a →
            getUserInfo lib env token db = (Ok (Some (InfoAgent a)), db))
       ∧ (∀ u,
            user_by_id db (jwt_userId decoded) = Some u →
            uwp_corporateProfile (load_profiles db u) = None →
            uwp_agentProfile (load_profiles db u) = None →
            getUserInfo lib env token db
            = (Ok (Some (InfoUser (load_profiles db u))), db))).
Proof.
  split.
  - intros e He. by rewrite getUserInfo_eq, He.
  - intros decoded Hd Hread. rewrite getUserInfo_eq, Hd, Hread.
    split; [by intros ->|]. split; [|split].
    + intros u c -> Hc. by rewrite Hc.
    + intros u a -> Hc Ha. by rewrite Hc, Ha.
    + intros u -> Hc Ha. by rewrite Hc, Ha.
Qed.

(** C8 on the fixture: a malformed token; a token of a user id without a
    row; a user with both profiles; a user with an agent profile only; a
    user with no profile. *)
Lemma getUserInfo_precedence_witness :
  getUserInfo Fixture.stub_lib (Fixture.env_at "c4" 2000000 0)
    "garbage" Fixture.store_both_profiles
  = (Err (UnauthorizedException "Invalid token"), Fixture.store_both_profiles)
  ∧ getUserInfo Fixture.stub_lib (Fixture.env_at "c4" 2000000 0)
      "u9.1000" Fixture.store_both_profiles
    = (Ok None, Fixture.store_both_profiles)
  ∧ getUserInfo Fixture.stub_lib (Fixture.env_at "c4" 2000000 0)
      "u1.1000" Fixture.store_both_profiles
    = (Ok (Some (InfoCorporate Fixture.alice_corporate)),
       Fixture.store_both_profiles)
  ∧ getUserInfo Fixture.stub_lib (Fixture.env_at "c4" 2000000 0)
      "u1.1000" Fixture.store_agent_profile
    = (Ok (Some (InfoAgent Fixture.alice_agent)), Fixture.store_agent_profile)
  ∧ getUserInfo Fixture.stub_lib (Fixture.env_at "c4" 2000000 0)
      "u1.1000" Fixture.store_alice
    = (Ok (Some (InfoUser (load_profiles Fixture.store_alice Fixture.alice))),
       Fixture.store_alice).
Proof.
  pose (env := Fixture.env_at "c4" 2000000 0).
  pose (u1 := mkJwtPayload "u1" 1000 (Some 4600)).
  pose (u9 := mkJwtPayload "u9" 1000 (Some 4600)).
  split; [|split; [|split; [|split]]].
  - apply (proj1 (getUserInfo_precedence Fixture.stub_lib env "garbage"
                    Fixture.store_both_profiles) JsonWebTokenError).
    vm_compute. reflexivity.
  - apply (proj1 (proj2 (getUserInfo_precedence Fixture.stub_lib env
                           "u9.1000" Fixture.store_both_profiles)
                    u9 ltac:(vm_compute; reflexivity) eq_refl)).
    vm_compute. reflexivity.
  - apply (proj1 (proj2 (proj2 (getUserInfo_precedence Fixture.stub_lib env
                           "u1.1000" Fixture.store_both_profiles)
                    u1 ltac:(vm_compute; reflexivity) eq_refl))
             Fixture.alice Fixture.alice_corporate);
      vm_compute; reflexivity.
  - apply (proj1 (proj2 (proj2 (proj2 (getUserInfo_precedence
                           Fixture.stub_lib env
                           "u1.1000" Fixture.store_agent_profile)
                    u1 ltac:(vm_compute; reflexivity) eq_refl)))
             Fixture.alice Fixture.alice_agent);
      vm_compute; reflexivity.
  - apply (proj2 (proj2 (proj2 (proj2 (getUserInfo_precedence
                           Fixture.stub_lib env
                           "u1.1000" Fixture.store_alice)
                    u1 ltac:(vm_compute; reflexivity) eq_refl)))
             Fixture.alice);
      vm_compute; reflexivity.
Defined.

(** ** Password-reset request *)

Lemma requestPasswordReset_run (env : Env) (email : string) (db : Store) :
  fault env UserFindUnique = false →
  (user_by_email db email = None →
   requestPasswordReset env email db = (Ok tt, db))
  ∧ (∀ user,
       user_by_email db email = Some user →
       fault env OtpCodeCreate = false →
       requestPasswordReset env email db
       = (Ok tt,
          apply_write db
            (WOtpCode
               (otp_row env
                  {| oci_userId := user_id user;
                     oci_code := otp_code_string env;
                     oci_type := PASSWORD_RESET;
                     oci_expiresAt := otp_expiry env |})))).
Proof.
  intros Hread. unfold requestPasswordReset. rewrite rethrow_id.
  unfold user_findUnique_email, db_create. unfold_M. rewrite Hread.
  split; [by intros ->|]. by intros user -> ->.
Qed.

(** C4. When no user row has the email, RequestPasswordReset returns
    without raising and leaves the store as it was (no OTP row); when a
    user row has it, the call adds exactly one row to [otp_codes], of type
    PASSWORD_RESET, owned by that user, unverified, and changes no other
    table.  The expiry of the row is 15 minutes later on the local wall
    clock of the host: it is [now + 900000] when the zone offset read back
    for the moved local time is the offset at [now], and differs from it
    by the change of offset otherwise. *)
Theorem requestPasswordReset_wall_clock_expiry
    (env : Env) (email : string) (db : Store)
    (Hread : fault env UserFindUnique = false) :
  (user_by_email db email = None →
   requestPasswordReset env email db = (Ok tt, db))
  ∧ (∀ user,
       user_by_email db email = Some user →
       fault env OtpCodeCreate = false →
       ∃ (o : OtpCode) (db' : Store),
         requestPasswordReset env email db = (Ok tt, db')
         ∧ otpCodes db' = otpCodes db ++ [o]
         ∧ otp_type o = PASSWORD_RESET
         ∧ otp_userId o = user_id user
         ∧ otp_verified o = false
         ∧ otp_expiresAt o
           = now env + 900000
             + (local_tza env (now env) true
                - local_tza env
                    (now env + local_tza env (now env) true + 900000) false)
         ∧ users db' = users db
         ∧ agents db' = agents db
         ∧ corporateUsers db' = corporateUsers db
         ∧ sessions db' = sessions db).
Proof.
  destruct (requestPasswordReset_run env email db Hread) as [Hnone Hsome].
  split; [exact Hnone|].
  intros user Hu Hinsert. eexists _, _.
  split; [by apply Hsome|]. simpl. unfold otp_expiry. cbv zeta.
  change (15 * 60000) with 900000. repeat split. simpl. lia.
Qed.

(** C4 at the failing inputs, on a host in America/New_York on 2 November
    2025: a request at 05:50 UTC (01:50 local, daylight time) creates a
    row that expires 75 minutes later, and a request at 06:40 UTC (01:40
    local, standard time) creates a row that expired 45 minutes before
    the request. *)
Lemma requestPasswordReset_wall_clock_expiry_witness :
  (∃ (o : OtpCode) (db' : Store),
     requestPasswordReset (Scenario.env_new_york "c4" 1762062600000 23456)
       "a@x.com" Fixture.store_alice
     = (Ok tt, db')
     ∧ otpCodes db' = otpCodes Fixture.store_alice ++ [o]
     ∧ otp_expiresAt o = 1762062600000 + 4500000)
  ∧ (∃ (o : OtpCode) (db' : Store),
       requestPasswordReset (Scenario.env_new_york "c4" 1762065600000 23456)
         "a@x.com" Fixture.store_alice
       = (Ok tt, db')
       ∧ otpCodes db' = otpCodes Fixture.store_alice ++ [o]
       ∧ otp_expiresAt o = 1762065600000 - 2700000).
Proof.
  split.
  - destruct (proj2 (requestPasswordReset_wall_clock_expiry
                       (Scenario.env_new_york "c4" 1762062600000 23456)
                       "a@x.com" Fixture.store_alice eq_refl)
                Fixture.alice ltac:(vm_compute; reflexivity) eq_refl)
      as (o & db' & Hrun & Hrows & _ & _ & _ & Hexp & _).
    exists o, db'. split; [exact Hrun|]. split; [exact Hrows|].
    rewrite Hexp. vm_compute. reflexivity.
  - destruct (proj2 (requestPasswordReset_wall_clock_expiry
                       (Scenario.env_new_york "c4" 1762065600000 23456)
                       "a@x.com" Fixture.store_alice eq_refl)
                Fixture.alice ltac:(vm_compute; reflexivity) eq_refl)
      as (o & db' & Hrun & Hrows & _ & _ & _ & Hexp & _).
    exists o, db'. split; [exact Hrun|]. split; [exact Hrows|].
    rewrite Hexp. vm_compute. reflexivity.
Defined.

(** ** Registration *)

Lemma mbind_inv {S A B : Type} (m : M S A) (k : A → M S B) (s s' : S)
    (r : result B) :
  (m ≫= k) s = (r, s') →
  (∃ e, m s = (Err e, s') ∧ r = Err e)
  ∨ ∃ a s1, m s = (Ok a, s1) ∧ k a s1 = (r, s').
Proof.
  unfold_M. destruct (m s) as [[a|e] s1].
  - intros H. right. eauto.
  - intros [= <- <-]. left. eauto.
Qed.

Lemma userType_is_delete_username (userDetails : obj) (t : string) :
  userType_is (delete "username" userDetails) t = userType_is userDetails t.
Proof. unfold userType_is. by rewrite lookup_delete_ne. Qed.

(** The steps of the transaction body. *)

Lemma tx_user_create_inv (sch : Schema) (env : Env) (data : obj)
    (st st' : TxState) (r : result User) :
  tx_user_create sch env data st = (r, st') →
  match r with
  | Ok u =>
      fault env UserCreate = false
      ∧ users_admits sch data = true
      ∧ user_row env data = Ok u
      ∧ st' = mkTx (pending st ++ [WUser u]) (outer st)
  | Err _ => st' = st
  end.
Proof.
  unfold tx_user_create. unfold_M.
  destruct (fault env UserCreate); [by intros [= <- <-]|].
  destruct (users_admits sch data); [|by intros [= <- <-]].
  destruct (user_row env data) as [u|e]; [|by intros [= <- <-]].
  destruct (users_unique _ u); intros [= <- <-]; done.
Qed.

Lemma tx_agent_create_inv (sch : Schema) (env : Env) (data : obj)
    (st st' : TxState) (r : result unit) :
  tx_agent_create sch env data st = (r, st') →
  match r with
  | Ok _ =>
      fault env AgentCreate = false
      ∧ ∃ p, profile_row env AgentCreate data = Ok p
             ∧ st' = mkTx (pending st ++ [WAgent p]) (outer st)
  | Err _ => st' = st
  end.
Proof.
  unfold tx_agent_create. unfold_M.
  destruct (fault env AgentCreate); [by intros [= <- <-]|].
  destruct (agents_admits sch data); [|by intros [= <- <-]].
  destruct (profile_row env AgentCreate data) as [p|e];
    [|by intros [= <- <-]].
  destruct (profiles_unique _ _ p); intros [= <- <-]; eauto.
Qed.

Lemma tx_corporateUser_create_inv (sch : Schema) (env : Env) (data : obj)
    (st st' : TxState) (r : result unit) :
  tx_corporateUser_create sch env data st = (r, st') →
  match r with
  | Ok _ =>
      fault env CorporateUserCreate = false
      ∧ ∃ p, profile_row env CorporateUserCreate data = Ok p
             ∧ st' = mkTx (pending st ++ [WCorporateUser p]) (outer st)
  | Err _ => st' = st
  end.
Proof.
  unfold tx_corporateUser_create. unfold_M.
  destruct (fault env CorporateUserCreate); [by intros [= <- <-]|].
  destruct (corporateUsers_admits sch data); [|by intros [= <- <-]].
  destruct (profile_row env CorporateUserCreate data) as [p|e];
    [|by intros [= <- <-]].
  destruct (profiles_unique _ _ p); intros [= <- <-]; eauto.
Qed.

Lemma tx_create_inv (env : Env) (op : DbOp) (w : Write) (st st' : TxState)
    (r : result unit) :
  tx_create env op w st = (r, st') →
  match r with
  | Ok _ => fault env op = false
            ∧ st' = mkTx (pending st ++ [w]) (outer st)
  | Err _ => st' = st
  end.
Proof.
  unfold tx_create. destruct (fault env op); intros [= <- <-]; done.
Qed.

Lemma via_outer_generateToken_inv (sch : Schema) (lib : Libraries)
    (env : Env) (userId : string) (st st' : TxState) (r : result string) :
  via_outer (generateToken sch lib env userId) st = (r, st') →
  match r with
  | Ok tok =>
      sessions_userId_nullable sch = true
      ∧ fault env SessionCreate = false
      ∧ tok = jwt_sign_1h lib userId (now env)
      ∧ st' = mkTx (pending st)
                (apply_write (outer st)
                   (WSession
                      (session_row env (generateToken_data lib env userId))))
  | Err _ => st' = st
  end.
Proof.
  unfold via_outer.
  destruct (generateToken sch lib env userId (outer st)) as [[tok|e] db']
    eqn:Hgen; intros [= <- <-].
  - apply generateToken_Ok in Hgen as (? & ? & _ & ? & ->). done.
  - apply generateToken_Err in Hgen as ->. by destruct st.
Qed.

Lemma user_row_registered (env : Env) (userDetails : obj) (h : string)
    (u : User) :
  user_row env (register_user_data (delete "username" userDetails) h) = Ok u →
  u = {| user_id := payload_key env UserCreate userDetails;
         user_fields :=
           delete "id" (register_user_data (delete "username" userDetails) h)
           ∪ users_defaults |}.
Proof.
  unfold user_row, row_key, payload_key, register_user_data.
  rewrite lookup_insert_ne, lookup_delete_ne by done.
  destruct (userDetails !! "id") as [[id| | |]|]; by intros [= <-].
Qed.

Lemma profile_row_registered (env : Env) (op : DbOp) (userDetails : obj)
    (uid : string) (p : Profile) :
  profile_row env op
    (register_profile_data (delete "username" userDetails) uid) = Ok p →
  p = {| profile_id := payload_key env op userDetails;
         profile_userId := uid;
         profile_fields :=
           delete "id" (delete "user" (delete "username" userDetails)) |}.
Proof.
  unfold profile_row, row_key, payload_key, register_profile_data.
  rewrite lookup_insert_eq, lookup_insert_ne, lookup_delete_ne by done.
  rewrite delete_insert_eq.
  destruct (userDetails !! "id") as [[id| | |]|]; by intros [= <-].
Qed.

(** The run of the transaction body of [register], step by step. *)
Ltac register_steps H :=
  unfold register in H; rewrite rethrow_id in H; unfold transaction in H;
  match type of H with
  | context [?body (mkTx [] ?db)] =>
      destruct (body (mkTx [] db)) as [r0 st0] eqn:Hbody
  end.

(** A registration that raises leaves the store as it was. *)
Lemma register_Err (sch : Schema) (lib : Libraries) (env : Env)
    (userDetails : obj) (db db' : Store) (e : error) :
  register sch lib env userDetails db = (Err e, db') → db' = db.
Proof.
  intros H. register_steps H.
  destruct r0 as [tok|e0]; [congruence|]. injection H as _ <-.
  apply mbind_inv in Hbody
    as [(e1 & Hhash & _)|(h & st1 & Hhash & Hbody)];
    [by injection Hhash as _ <-|].
  injection Hhash as _ <-.
  apply mbind_inv in Hbody
    as [(e1 & Huser & _)|(u & st2 & Huser & Hbody)];
    apply tx_user_create_inv in Huser; [by subst st0|].
  destruct Huser as (_ & _ & _ & ->).
  apply mbind_inv in Hbody
    as [(e1 & Hprofile & _)|([] & st3 & Hprofile & Hbody)].
  { destruct (userType_is _ "AGENT");
      [apply tx_agent_create_inv in Hprofile; by subst st0|].
    destruct (userType_is _ "CORPORATE");
      [apply tx_corporateUser_create_inv in Hprofile; by subst st0|].
    by injection Hprofile as _ <-. }
  assert (outer st3 = db) as Houter.
  { destruct (userType_is _ "AGENT");
      [apply tx_agent_create_inv in Hprofile
         as (_ & p & _ & ->); done|].
    destruct (userType_is _ "CORPORATE");
      [apply tx_corporateUser_create_inv in Hprofile
         as (_ & p & _ & ->); done|].
    by injection Hprofile as <-. }
  apply mbind_inv in Hbody
    as [(e1 & Hotp & _)|([] & st4 & Hotp & Hbody)];
    apply tx_create_inv in Hotp; [by subst st0|].
  destruct Hotp as (_ & ->).
  apply via_outer_generateToken_inv in Hbody. by subst st0.
Qed.

(** A registration that returns has committed the user row, the profile
    row of the role, the OTP row and the session row, and none of the
    calls it made was refused. *)
Lemma register_Ok (sch : Schema) (lib : Libraries) (env : Env)
    (userDetails : obj) (db db' : Store) (tok : string) :
  register sch lib env userDetails db = (Ok tok, db') →
  ∃ p : string,
    userDetails !! "password" = Some (VStr p)
    ∧ tok = jwt_sign_1h lib (payload_key env UserCreate userDetails) (now env)
    ∧ users db' = users db ++ [registered_user lib env userDetails p]
    ∧ agents db'
      = agents db ++
        (if userType_is userDetails "AGENT"
         then [registered_profile env AgentCreate userDetails] else [])
    ∧ corporateUsers db'
      = corporateUsers db ++
        (if negb (userType_is userDetails "AGENT")
            && userType_is userDetails "CORPORATE"
         then [registered_profile env CorporateUserCreate userDetails]
         else [])
    ∧ otpCodes db' = otpCodes db ++ [registered_otp env userDetails]
    ∧ sessions db' = sessions db ++ [registered_session lib env userDetails]
    ∧ sessions_userId_nullable sch = true
    ∧ users_admits sch
        (register_user_data (delete "username" userDetails)
           (bcrypt_hash lib p (salt env))) = true
    ∧ fault env UserCreate = false
    ∧ (userType_is userDetails "AGENT" = true →
       fault env AgentCreate = false)
    ∧ (userType_is userDetails "AGENT" = false →
       userType_is userDetails "CORPORATE" = true →
       fault env CorporateUserCreate = false)
    ∧ fault env OtpCodeCreate = false
    ∧ fault env SessionCreate = false.
Proof.
  intros H. register_steps H.
  destruct r0 as [tok0|e0]; [|congruence]. injection H as <- <-.
  apply mbind_inv in Hbody
    as [(e1 & _ & [=])|(h & st1 & Hhash & Hbody)].
  unfold bcrypt_hash_js, lift_result in Hhash.
  destruct (userDetails !! "password") as [[p| | |]|] eqn:Hpw;
    try discriminate.
  injection Hhash as <- <-. exists p. split; [done|].
  apply mbind_inv in Hbody
    as [(e1 & _ & [=])|(u & st2 & Huser & Hbody)].
  apply tx_user_create_inv in Huser as (Hf1 & Hadm & Hrow & ->).
  apply user_row_registered in Hrow. subst u.
  apply mbind_inv in Hbody
    as [(e1 & _ & [=])|([] & st3 & Hprofile & Hbody)].
  apply mbind_inv in Hbody
    as [(e1 & _ & [=])|([] & st4 & Hotp & Hbody)].
  apply tx_create_inv in Hotp as (Hf3 & ->).
  apply via_outer_generateToken_inv in Hbody as (Hnull & Hf4 & -> & ->).
  rewrite !userType_is_delete_username in Hprofile.
  destruct (userType_is userDetails "AGENT");
    [|destruct (userType_is userDetails "CORPORATE")].
  - apply tx_agent_create_inv in Hprofile as (Hf2 & pr & Hpr & ->).
    apply profile_row_registered in Hpr. subst pr.
    simpl. rewrite ?app_nil_r. repeat split; done.
  - apply tx_corporateUser_create_inv in Hprofile as (Hf2 & pr & Hpr & ->).
    apply profile_row_registered in Hpr. subst pr.
    simpl. rewrite ?app_nil_r. repeat split; done.
  - injection Hprofile as <-. simpl. rewrite ?app_nil_r.
    repeat split; done.
Qed.

(** A registration raises, and leaves the store as it was, as soon as a
    step after the creation of the user row fails. *)
Lemma register_step_fails (sch : Schema) (lib : Libraries) (env : Env)
    (userDetails : obj) (db : Store) (p : string) :
  userDetails !! "password" = Some (VStr p) →
  fault env UserCreate = false →
  (userType_is userDetails "AGENT" = true ∧ fault env AgentCreate = true)
  ∨ (userType_is userDetails "AGENT" = false
     ∧ userType_is userDetails "CORPORATE" = true
     ∧ fault env CorporateUserCreate = true)
  ∨ fault env OtpCodeCreate = true
  ∨ fault env SessionCreate = true
  ∨ sessions_userId_nullable sch = false →
  ∃ e, register sch lib env userDetails db = (Err e, db).
Proof.
  intros Hpw Huser Hstep.
  destruct (register sch lib env userDetails db) as [[tok|e] db'] eqn:Hrun.
  - exfalso. apply register_Ok in Hrun
      as (p0 & _ & _ & _ & _ & _ & _ & _ & Hnull & _ & _ & Ha & Hc & Ho & Hs).
    destruct Hstep as [[Hr Hf]|[(Hr & Hr' & Hf)|[Hf|[Hf|Hf]]]].
    + specialize (Ha Hr). congruence.
    + specialize (Hc Hr Hr'). congruence.
    + congruence.
    + congruence.
    + congruence.
  - apply register_Err in Hrun as Heq. subst db'. eauto.
Qed.

(** C2. Register is all or nothing: when it raises, the store is exactly
    the store before the call; every failure of a step after the creation
    of the user row (profile creation, OTP creation, token issuance) makes
    it raise; and when it returns, the user row, the profile row of the
    role, the OTP row and the session row have all been added. *)
Theorem register_all_or_nothing
    (sch : Schema) (lib : Libraries) (env : Env) (userDetails : obj)
    (db : Store) :
  (∀ e db', register sch lib env userDetails db = (Err e, db') → db' = db)
  ∧ (∀ p,
       userDetails !! "password" = Some (VStr p) →
       fault env UserCreate = false →
       (userType_is userDetails "AGENT" = true ∧ fault env AgentCreate = true)
       ∨ (userType_is userDetails "AGENT" = false
          ∧ userType_is userDetails "CORPORATE" = true
          ∧ fault env CorporateUserCreate = true)
       ∨ fault env OtpCodeCreate = true
       ∨ fault env SessionCreate = true
       ∨ sessions_userId_nullable sch = false →
       ∃ e, register sch lib env userDetails db = (Err e, db))
  ∧ (∀ tok db',
       register sch lib env userDetails db = (Ok tok, db') →
       ∃ p,
         userDetails !! "password" = Some (VStr p)
         ∧ users db' = users db ++ [registered_user lib env userDetails p]
         ∧ agents db'
           = agents db ++
             (if userType_is userDetails "AGENT"
              then [registered_profile env AgentCreate userDetails] else [])
         ∧ corporateUsers db'
           = corporateUsers db ++
             (if negb (userType_is userDetails "AGENT")
                 && userType_is userDetails "CORPORATE"
              then [registered_profile env CorporateUserCreate userDetails]
              else [])
         ∧ otpCodes db' = otpCodes db ++ [registered_otp env userDetails]).
Proof.
  split; [|split].
  - intros e db'. apply register_Err.
  - intros p. apply register_step_fails.
  - intros tok db' Hok.
    destruct (register_Ok _ _ _ _ _ _ _ Hok)
      as (p & Hpw & _ & Hu & Ha & Hc & Ho & _).
    eauto 10.
Qed.

(** C2 on the fixture: an agent registration whose OTP insert fails, after
    the user and the agent profile were created, leaves the empty store
    empty. *)
Lemma register_all_or_nothing_witness :
  snd (register Fixture.lenient_schema Fixture.stub_lib
         (Fixture.env_failing OtpCodeCreate "c6" 1000000 23456)
         Fixture.agent_details Fixture.empty_store)
  = Fixture.empty_store
  ∧ ∃ e, register Fixture.lenient_schema Fixture.stub_lib
           (Fixture.env_failing OtpCodeCreate "c6" 1000000 23456)
           Fixture.agent_details Fixture.empty_store
         = (Err e, Fixture.empty_store).
Proof.
  pose proof (register_all_or_nothing Fixture.lenient_schema Fixture.stub_lib
                (Fixture.env_failing OtpCodeCreate "c6" 1000000 23456)
                Fixture.agent_details Fixture.empty_store)
    as (Hrollback & Hfails & _).
  destruct (Hfails "secret123") as [e He].
  - vm_compute. reflexivity.
  - reflexivity.
  - right. right. left. reflexivity.
  - split; [|eauto]. rewrite He. reflexivity.
Defined.

(** C5. After a successful Register the password column of the created
    user row is [bcrypt.hash] of the submitted plaintext; as bcrypt never
    returns its input, it differs from the submitted plaintext. *)
Theorem register_stores_digest
    (sch : Schema) (lib : Libraries) (env : Env) (userDetails : obj)
    (db db' : Store) (tok : string)
    (Hdigest : ∀ data s, bcrypt_hash lib data s ≠ data)
    (Hok : register sch lib env userDetails db = (Ok tok, db')) :
  ∃ (p : string) (u : User),
    userDetails !! "password" = Some (VStr p)
    ∧ users db' = users db ++ [u]
    ∧ user_fields u !! "password"
      = Some (VStr (bcrypt_hash lib p (salt env)))
    ∧ user_fields u !! "password" ≠ Some (VStr p).
Proof.
  destruct (register_Ok _ _ _ _ _ _ _ Hok) as (p & Hpw & _ & Hu & _).
  exists p, (registered_user lib env userDetails p).
  assert (user_fields (registered_user lib env userDetails p) !! "password"
          = Some (VStr (bcrypt_hash lib p (salt env)))) as Hstored.
  { unfold registered_user, register_user_data. simpl.
    apply lookup_union_Some_l. rewrite lookup_delete_ne by done.
    apply lookup_insert_eq. }
  repeat split; [done..|].
  rewrite Hstored. intros [= Heq]. by apply (Hdigest p (salt env)).
Qed.

Lemma register_stores_digest_witness :
  ∃ (p : string) (u : User),
    Fixture.standard_details !! "password" = Some (VStr p)
    ∧ users (snd (register Fixture.lenient_schema Fixture.stub_lib
                    (Fixture.env_at "c7" 1000000 23456)
                    Fixture.standard_details Fixture.empty_store))
      = users Fixture.empty_store ++ [u]
    ∧ user_fields u !! "password"
      = Some (VStr (bcrypt_hash Fixture.stub_lib p
                      (salt (Fixture.env_at "c7" 1000000 23456))))
    ∧ user_fields u !! "password" ≠ Some (VStr p).
Proof.
  apply (register_stores_digest Fixture.lenient_schema Fixture.stub_lib
           (Fixture.env_at "c7" 1000000 23456) Fixture.standard_details
           Fixture.empty_store _ "c7-user.1000" stub_hash_not_identity).
  vm_compute. reflexivity.
Defined.

Lemma admits_unknown_column (columns required : list string) (data : obj)
    (k : string) :
  is_Some (data !! k) → k ∉ columns → admits columns required data = false.
Proof.
  intros Hk Hcol. unfold admits. apply andb_false_iff. left.
  apply bool_decide_eq_false_2. intros Hsub. apply Hcol.
  apply elem_of_dom in Hk. apply Hsub in Hk.
  by apply elem_of_list_to_set in Hk.
Qed.

(** C9. The code selects no fields per role: the data it builds for
    [agent.create] and [corporateUser.create] is the whole registration
    payload, plaintext password included, with the connection to the new
    user; and the same payload, [userType] included, goes to
    [user.create].  As [users] has no column [userType], a registration
    with role agent or corporate is refused at the creation of the user
    under the columns of the migration, whatever the rest of the schema:
    it raises and leaves the store as it was, so no role profile is ever
    created.  Under a schema that lets the registration through, the
    profile row it creates holds the plaintext password. *)
Theorem register_role_payload_forwarded
    (sch : Schema) (lib : Libraries) (env : Env) (userDetails : obj)
    (db : Store)
    (Hrole : userType_is userDetails "AGENT" = true
             ∨ userType_is userDetails "CORPORATE" = true) :
  (∀ newUserId,
     register_profile_data (delete "username" userDetails) newUserId
     !! "user" = Some (VConnect newUserId)
     ∧ register_profile_data (delete "username" userDetails) newUserId
       !! "password" = userDetails !! "password"
     ∧ ∀ k, k ≠ "username" → k ≠ "user" →
            register_profile_data (delete "username" userDetails) newUserId
            !! k = userDetails !! k)
  ∧ ((∀ data, users_admits sch data = users_admits migration_schema data) →
     (∃ e, register sch lib env userDetails db = (Err e, db))
     ∧ ∀ p, userDetails !! "password" = Some (VStr p) →
            fault env UserCreate = false →
            register sch lib env userDetails db
            = (Err (ConstraintViolation "users: argument"), db))
  ∧ (∀ tok db',
       register sch lib env userDetails db = (Ok tok, db') →
       ∃ (p : string) (row : Profile),
         userDetails !! "password" = Some (VStr p)
         ∧ (agents db' = agents db ++ [row]
            ∨ corporateUsers db' = corporateUsers db ++ [row])
         ∧ profile_userId row = payload_key env UserCreate userDetails
         ∧ profile_fields row !! "password" = Some (VStr p)).
Proof.
  split; [|split].
  - intros newUserId. unfold register_profile_data.
    split; [apply lookup_insert_eq|].
    split; [by rewrite lookup_insert_ne, lookup_delete_ne|].
    intros k Hk1 Hk2. by rewrite lookup_insert_ne, lookup_delete_ne.
  - intros Hcolumns.
    assert (∀ h, users_admits sch
                   (register_user_data (delete "username" userDetails) h)
                 = false) as Hrefused.
    { intros h. rewrite Hcolumns. simpl.
      apply (admits_unknown_column _ _ _ "userType").
      - unfold register_user_data.
        rewrite lookup_insert_ne, lookup_delete_ne by done.
        unfold userType_is in Hrole.
        destruct Hrole as [Hr|Hr]; apply bool_decide_eq_true in Hr;
          rewrite Hr; eauto.
      - unfold users_columns. rewrite !elem_of_cons, elem_of_nil.
        intros H. repeat (destruct H as [H|H]; [discriminate|]). done. }
    split.
    + destruct (register sch lib env userDetails db) as [[tok|e] db']
        eqn:Hrun.
      * apply register_Ok in Hrun
          as (p & _ & _ & _ & _ & _ & _ & _ & _ & Hadm & _).
        rewrite Hrefused in Hadm. discriminate.
      * apply register_Err in Hrun as Heq. subst db'. eauto.
    + intros p Hpw Hf. unfold register. rewrite rethrow_id.
      unfold transaction, tx_user_create, bcrypt_hash_js. unfold_M.
      rewrite Hpw. simpl. rewrite Hf, Hrefused. reflexivity.
  - intros tok db' Hok.
    apply register_Ok in Hok as (p & Hpw & _ & _ & Ha & Hc & _).
    exists p.
    destruct (userType_is userDetails "AGENT") eqn:Hagent.
    + exists (registered_profile env AgentCreate userDetails).
      split; [done|]. split; [by left|]. split; [done|]. simpl.
      by rewrite !lookup_delete_ne.
    + destruct Hrole as [Hr|Hr]; [discriminate|]. rewrite Hr in Hc.
      exists (registered_profile env CorporateUserCreate userDetails).
      split; [done|]. split; [by right|]. split; [done|]. simpl.
      by rewrite !lookup_delete_ne.
Qed.

(** C9 at the failing input: the agent payload of the fixture.  Under the
    migration's schema the registration is refused; under the lenient
    schema the agent row holds the plaintext password. *)
Lemma register_role_payload_forwarded_witness :
  register migration_schema Fixture.stub_lib
    (Fixture.env_at "c8" 1000000 23456) Fixture.agent_details
    Fixture.empty_store
  = (Err (ConstraintViolation "users: argument"), Fixture.empty_store)
  ∧ register_profile_data (delete "username" Fixture.agent_details) "c8-user"
    !! "password"
    = Some (VStr "secret123")
  ∧ ∃ (p : string) (row : Profile),
      Fixture.agent_details !! "password" = Some (VStr p)
      ∧ (agents (snd (register Fixture.lenient_schema Fixture.stub_lib
                        (Fixture.env_at "c8" 1000000 23456)
                        Fixture.agent_details Fixture.empty_store))
         = agents Fixture.empty_store ++ [row]
         ∨ corporateUsers
             (snd (register Fixture.lenient_schema Fixture.stub_lib
                     (Fixture.env_at "c8" 1000000 23456)
                     Fixture.agent_details Fixture.empty_store))
           = corporateUsers Fixture.empty_store ++ [row])
      ∧ profile_userId row
        = payload_key (Fixture.env_at "c8" 1000000 23456) UserCreate
            Fixture.agent_details
      ∧ profile_fields row !! "password" = Some (VStr p).
Proof.
  assert (userType_is Fixture.agent_details "AGENT" = true
          ∨ userType_is Fixture.agent_details "CORPORATE" = true) as Hrole
    by (left; vm_compute; reflexivity).
  split; [|split].
  - destruct (register_role_payload_forwarded migration_schema
                Fixture.stub_lib (Fixture.env_at "c8" 1000000 23456)
                Fixture.agent_details Fixture.empty_store Hrole)
      as (_ & Hrefused & _).
    apply (proj2 (Hrefused (λ _, eq_refl)) "secret123");
      vm_compute; reflexivity.
  - destruct (register_role_payload_forwarded migration_schema
                Fixture.stub_lib (Fixture.env_at "c8" 1000000 23456)
                Fixture.agent_details Fixture.empty_store Hrole)
      as (Hdata & _).
    rewrite (proj1 (proj2 (Hdata "c8-user"))). vm_compute. reflexivity.
  - destruct (register_role_payload_forwarded Fixture.lenient_schema
                Fixture.stub_lib (Fixture.env_at "c8" 1000000 23456)
                Fixture.agent_details Fixture.empty_store Hrole)
      as (_ & _ & Hrow).
    apply (Hrow "c8-user.1000"). vm_compute. reflexivity.
Defined.

(** ** One-time codes *)

Lemma verifyEmail_shape (env : Env) (code : string) :
  verifyEmail env code
  = verify_otp env code EMAIL_VERIFICATION
      "Invalid or expired verification token"
      {[ "isVerified" := VBool true ]}.
Proof. reflexivity. Qed.

Lemma verifyPasswordReset_shape (lib : Libraries) (env : Env)
    (code newPassword : string) :
  verifyPasswordReset lib env code newPassword
  = verify_otp env code PASSWORD_RESET "Invalid or expired token"
      {[ "password" := VStr (bcrypt_hash lib newPassword (salt env)) ]}.
Proof. reflexivity. Qed.

Lemma find_all_false {A : Type} (f : A → bool) (l : list A) :
  (∀ x, x ∈ l → f x = false) → find f l = None.
Proof.
  induction l as [|x l IH]; intros Hall; simpl; [done|].
  rewrite (Hall x) by left. apply IH. intros y Hy. apply Hall. by right.
Qed.

Lemma find_Some_elem {A : Type} (f : A → bool) (l : list A) (x : A) :
  find f l = Some x → x ∈ l ∧ f x = true.
Proof.
  intros H. apply find_some in H as [Hin Hf].
  split; [by apply list_elem_of_In|done].
Qed.

Lemma otp_where_true (code : string) (type : OtpType) (t : Z) (o : OtpCode) :
  otp_where code type t o = true
  ↔ otp_code o = code ∧ otp_type o = type ∧ t < otp_expiresAt o
    ∧ otp_verified o = false.
Proof.
  unfold otp_where.
  rewrite !andb_true_iff, !bool_decide_eq_true, negb_true_iff. tauto.
Qed.

Lemma verify_otp_refused (env : Env) (code : string) (type : OtpType)
    (message : string) (data : obj) (db : Store) :
  fault env OtpCodeFindFirst = false →
  find (otp_where code type (now env)) (otpCodes db) = None →
  verify_otp env code type message data db
  = (Err (UnauthorizedException message), db).
Proof.
  intros Hf Hnone. unfold verify_otp. rewrite rethrow_id.
  unfold otpCode_findFirst. unfold_M. by rewrite Hf, Hnone.
Qed.

Lemma verify_otp_Ok (env : Env) (code : string) (type : OtpType)
    (message : string) (data : obj) (db db' : Store) :
  verify_otp env code type message data db = (Ok tt, db') →
  ∃ r : OtpCode,
    find (otp_where code type (now env)) (otpCodes db) = Some r
    ∧ otpCodes db'
      = map (λ o, if bool_decide (otp_id o = otp_id r)
                  then mark_verified o else o) (otpCodes db).
Proof.
  unfold verify_otp. rewrite rethrow_id.
  unfold otpCode_findFirst, user_update, otpCode_update_verified. unfold_M.
  destruct (fault env OtpCodeFindFirst); [congruence|].
  destruct (find _ (otpCodes db)) as [r|]; [|congruence].
  destruct (fault env UserUpdate); [congruence|].
  case_bool_decide; [|congruence].
  destruct (fault env OtpCodeUpdate); [congruence|]. simpl.
  case_bool_decide; [|congruence].
  intros [= <-]. exists r. done.
Qed.

(** The flow returns when a row matches, its owner exists and no call of
    the collaborator faults. *)
Lemma verify_otp_succeeds (env : Env) (code : string) (type : OtpType)
    (message : string) (data : obj) (db : Store) (r : OtpCode) :
  (∀ op, fault env op = false) →
  find (otp_where code type (now env)) (otpCodes db) = Some r →
  Exists (λ u, user_id u = otp_userId r) (users db) →
  ∃ db', verify_otp env code type message data db = (Ok tt, db').
Proof.
  intros Hf Hfind Huser. unfold verify_otp. rewrite rethrow_id.
  unfold otpCode_findFirst, user_update, otpCode_update_verified. unfold_M.
  rewrite !Hf, Hfind.
  rewrite bool_decide_eq_true_2 by done. simpl.
  rewrite bool_decide_eq_true_2; [eauto|].
  apply find_Some_elem in Hfind as [Hin _].
  apply Exists_exists. eauto.
Qed.

Lemma verify_otp_accepted_once (env : Env) (code : string) (type : OtpType)
    (message : string) (data : obj) (data' : Env → obj) (db db' : Store) :
  verify_otp env code type message data db = (Ok tt, db') →
  accepted_once type message
    (λ env', verify_otp env' code type message (data' env')) env code db db'.
Proof.
  intros Hok. apply verify_otp_Ok in Hok as (r & Hfind & Hmap).
  pose proof Hfind as Hr. apply find_Some_elem in Hr as [Hin Hr].
  apply otp_where_true in Hr as (Hcode & Htype & Hexp & Hver).
  assert (∀ o, o ∈ otpCodes db' →
               otp_verified o = true
               ∨ (o ∈ otpCodes db ∧ otp_id o ≠ otp_id r)) as Hrows.
  { intros o Ho. rewrite Hmap in Ho.
    apply list_elem_of_fmap in Ho as (o0 & -> & Ho0).
    case_bool_decide; [by left|by right]. }
  exists r. repeat split; try done.
  - intros o Ho Hid. by destruct (Hrows o Ho) as [?|[_ ?]].
  - intros code' type' t' o Ho Hid.
    apply find_Some_elem in Ho as [Ho Hw].
    apply otp_where_true in Hw as (_ & _ & _ & Hv).
    destruct (Hrows o Ho) as [?|[_ ?]]; congruence.
  - intros env' Hf Hothers. apply verify_otp_refused; [done|].
    apply find_all_false. intros o Ho.
    destruct (Hrows o Ho) as [Hv|[Hin' Hid]]; [|by apply Hothers].
    unfold otp_where. rewrite Hv. simpl. apply andb_false_r.
Qed.

Lemma verify_otp_never_stale (env : Env) (code : string) (type : OtpType)
    (message : string) (data : obj) (db : Store) :
  fault env OtpCodeFindFirst = false →
  (∀ o, o ∈ otpCodes db → otp_code o = code →
        otp_verified o = true ∨ otp_expiresAt o ≤ now env) →
  verify_otp env code type message data db
  = (Err (UnauthorizedException message), db).
Proof.
  intros Hf Hstale. apply verify_otp_refused; [done|].
  apply find_all_false. intros o Ho.
  destruct (otp_where code type (now env) o) eqn:Hw; [|done].
  apply otp_where_true in Hw as (Hcode & _ & Hexp & Hv).
  destruct (Hstale o Ho Hcode) as [?|?]; [congruence|lia].
Qed.

(** C1, as the code has it. Each OTP row is accepted at most once by
    VerifyEmail and VerifyPasswordReset: a successful verification matched
    an unverified, unexpired row of the flow's type, leaves every row with
    that id verified, and no later lookup returns that row; a later call
    with the same code raises the flow's
    [UnauthorizedException("Invalid or expired ...")] provided no other
    row still matches the code; and a code all of whose rows are verified
    or expired is refused. *)
Theorem otp_row_accepted_at_most_once (lib : Libraries) :
  (∀ env code db db',
     verifyEmail env code db = (Ok tt, db') →
     accepted_once EMAIL_VERIFICATION "Invalid or expired verification token"
       (λ env', verifyEmail env' code) env code db db')
  ∧ (∀ env code newPassword newPassword' db db',
       verifyPasswordReset lib env code newPassword db = (Ok tt, db') →
       accepted_once PASSWORD_RESET "Invalid or expired token"
         (λ env', verifyPasswordReset lib env' code newPassword')
         env code db db')
  ∧ (∀ env code newPassword db,
       fault env OtpCodeFindFirst = false →
       (∀ o, o ∈ otpCodes db → otp_code o = code →
             otp_verified o = true ∨ otp_expiresAt o ≤ now env) →
       verifyEmail env code db
       = (Err (UnauthorizedException "Invalid or expired verification token"),
          db)
       ∧ verifyPasswordReset lib env code newPassword db
         = (Err (UnauthorizedException "Invalid or expired token"), db)).
Proof.
  split; [|split].
  - intros env code db db' Hok. rewrite verifyEmail_shape in Hok.
    apply (verify_otp_accepted_once _ _ _ _ _
             (λ _, {[ "isVerified" := VBool true ]}) _ _ Hok).
  - intros env code pw pw' db db' Hok.
    rewrite verifyPasswordReset_shape in Hok.
    apply (verify_otp_accepted_once _ _ _ _ _
             (λ env', {[ "password" :=
                           VStr (bcrypt_hash lib pw' (salt env')) ]})
             _ _ Hok).
  - intros env code pw db Hf Hstale.
    rewrite verifyEmail_shape, verifyPasswordReset_shape.
    split; by apply verify_otp_never_stale.
Qed.

(** C1 on the fixture: Alice's only reset code is accepted, and the row is
    consumed. *)
Lemma otp_row_accepted_at_most_once_witness :
  accepted_once PASSWORD_RESET "Invalid or expired token"
    (λ env', verifyPasswordReset Fixture.stub_lib env' "123456" "newpass2")
    (Fixture.env_at "c9" 1000000 0) "123456" Fixture.store_one_code
    (snd (verifyPasswordReset Fixture.stub_lib
            (Fixture.env_at "c9" 1000000 0) "123456" "newpass1"
            Fixture.store_one_code)).
Proof.
  apply (proj1 (proj2 (otp_row_accepted_at_most_once Fixture.stub_lib))
           (Fixture.env_at "c9" 1000000 0) "123456" "newpass1" "newpass2").
  vm_compute. reflexivity.
Defined.

(** C1 as stated fails: when two unexpired password-reset rows hold the
    same six digits, VerifyPasswordReset accepts the code, and a later call
    with the same code is accepted again, consuming the second row. *)
Lemma otp_code_accepted_twice :
  fst (verifyPasswordReset Fixture.stub_lib
         (Fixture.env_at "c9" 1000000 0) "123456" "newpass1"
         Fixture.store_same_code)
  = Ok tt
  ∧ fst (verifyPasswordReset Fixture.stub_lib
           (Fixture.env_at "c10" 1001000 0) "123456" "newpass2"
           (snd (verifyPasswordReset Fixture.stub_lib
                   (Fixture.env_at "c9" 1000000 0) "123456" "newpass1"
                   Fixture.store_same_code)))
    = Ok tt
  ∧ otp_verified
    <$> otpCodes
          (snd (verifyPasswordReset Fixture.stub_lib
                  (Fixture.env_at "c10" 1001000 0) "123456" "newpass2"
                  (snd (verifyPasswordReset Fixture.stub_lib
                          (Fixture.env_at "c9" 1000000 0) "123456" "newpass1"
                          Fixture.store_same_code))))
    = [true; true].
Proof. vm_compute. repeat split; reflexivity. Qed.

(** ** Sessions written at token issuance *)

Lemma generateToken_issues (sch : Schema) (lib : Libraries) (env : Env)
    (userId : string) (db : Store) :
  issues_session_without_user env (generateToken sch lib env userId db) db.
Proof.
  rewrite generateToken_eq. unfold issues_session_without_user.
  destruct (fault env SessionCreate); [done|].
  destruct (sessions_userId_nullable sch); [|done].
  destruct (sessions_token_free _ db); done.
Qed.

Lemma login_through_generateToken (sch : Schema) (lib : Libraries)
    (env : Env) (email password : string) (db : Store) :
  (∃ e, login sch lib env email password db = (Err e, db))
  ∨ (∃ userId, login sch lib env email password db
               = generateToken sch lib env userId db).
Proof.
  unfold login. rewrite rethrow_id.
  unfold user_findUnique_email, bcrypt_compare_js. unfold_M.
  destruct (fault env UserFindUnique); [eauto|].
  destruct (user_by_email db email) as [user|]; [|eauto].
  destruct (user_fields user !! "password") as [[h| | |]|]; eauto.
  destruct (bcrypt_compare lib password h); eauto.
Qed.

Lemma refreshToken_through_generateToken (sch : Schema) (lib : Libraries)
    (env : Env) (token : string) (db : Store) :
  (∃ e, refreshToken sch lib env token db = (Err e, db))
  ∨ (∃ userId, refreshToken sch lib env token db
               = generateToken sch lib env userId db).
Proof.
  unfold refreshToken. unfold_M.
  destruct (jwt_verify lib token (now env)); eauto.
Qed.

Lemma register_issues (sch : Schema) (lib : Libraries) (env : Env)
    (userDetails : obj) (db : Store) :
  issues_session_without_user env (register sch lib env userDetails db) db
  ∧ (sessions_userId_nullable sch = false →
     ∃ e, register sch lib env userDetails db = (Err e, db)).
Proof.
  destruct (register sch lib env userDetails db) as [[tok|e] db'] eqn:Hrun.
  - apply register_Ok in Hrun
      as (p & _ & -> & _ & _ & _ & _ & Hs & Hnull & _).
    split; [exact Hs|]. intros Hnot. congruence.
  - apply register_Err in Hrun as Heq. subst db'. simpl. eauto.
Qed.

(** C10. The session row written at token issuance holds the token, an
    expiry one hour after now and no user id: [generateToken] either raises
    and writes nothing, or adds exactly that row, and so do Register, Login
    and RefreshToken, which issue their token through it.  Under the
    migration's schema, where [sessions.userId] is NOT NULL, the insert is
    refused: [generateToken], and with it Register, Login and RefreshToken,
    raise on every input and leave the store as it was. *)
Theorem session_rows_have_no_user
    (sch : Schema) (lib : Libraries) (env : Env) (db : Store) :
  (∀ userId,
     generateToken_data lib env userId
     = {| sci_userId := None;
          sci_token := jwt_sign_1h lib userId (now env);
          sci_expiresAt := now env + 3600000 |}
     ∧ sessions_userId_ok migration_schema
         (generateToken_data lib env userId) db = false
     ∧ issues_session_without_user env
         (generateToken sch lib env userId db) db
     ∧ ∃ e, generateToken migration_schema lib env userId db = (Err e, db))
  ∧ (∀ userDetails,
       issues_session_without_user env
         (register sch lib env userDetails db) db
       ∧ ∃ e, register migration_schema lib env userDetails db = (Err e, db))
  ∧ (∀ email password,
       issues_session_without_user env
         (login sch lib env email password db) db
       ∧ ∃ e, login migration_schema lib env email password db = (Err e, db))
  ∧ (∀ token,
       issues_session_without_user env
         (refreshToken sch lib env token db) db
       ∧ ∃ e, refreshToken migration_schema lib env token db = (Err e, db)).
Proof.
  split; [|split; [|split]].
  - intros userId. split; [done|]. split; [done|].
    split; [apply generateToken_issues|apply generateToken_migration].
  - intros userDetails. split; [apply register_issues|].
    by apply register_issues.
  - intros email password. split.
    + destruct (login_through_generateToken sch lib env email password db)
        as [[e ->]|[userId ->]]; [done|apply generateToken_issues].
    + destruct (login_through_generateToken migration_schema lib env
                  email password db) as [[e ->]|[userId ->]];
        [eauto|apply generateToken_migration].
  - intros token. split.
    + destruct (refreshToken_through_generateToken sch lib env token db)
        as [[e ->]|[userId ->]]; [done|apply generateToken_issues].
    + destruct (refreshToken_through_generateToken migration_schema lib env
                  token db) as [[e ->]|[userId ->]];
        [eauto|apply generateToken_migration].
Qed.

(** * Further properties of the service *)

(** ** Password change *)

Lemma jwt_verify_Err (lib : Libraries) (token : string) (t : Z) (e : error) :
  jwt_verify lib token t = Err e →
  (e = JsonWebTokenError ∨ e = TokenExpiredError)
  ∧ ¬ token_valid lib token t.
Proof.
  intros He. split.
  - revert He. unfold jwt_verify.
    destruct (jwt_decode lib token SECRET) as [p|]; [|intros [= <-]; auto].
    destruct (jwt_exp p) as [x|]; [|done].
    case_bool_decide; [intros [= <-]; auto|done].
  - intros [p Hp]. apply jwt_verify_Ok in Hp. congruence.
Qed.

Lemma changePassword_eq (lib : Libraries) (env : Env)
    (token oldPassword newPassword : string) (db : Store) :
  changePassword lib env token oldPassword newPassword db
  = match jwt_verify lib token (now env) with
    | Err e => (Err e, db)
    | Ok decoded =>
        if fault env UserFindUnique
        then (Err (StorageError UserFindUnique), db)
        else
          match user_by_id db (jwt_userId decoded) with
          | None => (Err (UnauthorizedException "Invalid credentials"), db)
          | Some user =>
              match bcrypt_compare_js lib oldPassword
                      (user_fields user !! "password") with
              | Err e => (Err e, db)
              | Ok false =>
                  (Err (UnauthorizedException "Invalid credentials"), db)
              | Ok true =>
                  user_update env (user_id user)
                    {[ "password" :=
                         VStr (bcrypt_hash lib newPassword (salt env)) ]} db
              end
          end
    end.
Proof.
  unfold changePassword. rewrite rethrow_id.
  unfold user_findUnique. unfold_M.
  destruct (jwt_verify lib token (now env)) as [p|e]; [|reflexivity].
  destruct (fault env UserFindUnique); [reflexivity|].
  destruct (user_by_id db (jwt_userId p)) as [user|]; [|reflexivity].
  destruct (bcrypt_compare_js lib oldPassword _) as [[|]|e];
    reflexivity.
Qed.

Lemma user_by_id_Some (db : Store) (id : string) (u : User) :
  user_by_id db id = Some u → u ∈ users db ∧ user_id u = id.
Proof.
  unfold user_by_id. intros H. apply find_Some_elem in H as [Hin Hid].
  by apply bool_decide_eq_true in Hid.
Qed.

Lemma user_update_Ok (env : Env) (id : string) (data : obj) (u : User)
    (db : Store) :
  fault env UserUpdate = false →
  u ∈ users db → user_id u = id →
  user_update env id data db
  = (Ok tt,
     mkStore (set_fields id data (users db)) (agents db) (corporateUsers db)
             (otpCodes db) (sessions db)).
Proof.
  intros Hf Hin Hid. unfold user_update, set_fields. unfold_M. rewrite Hf.
  rewrite bool_decide_eq_true_2; [done|].
  apply Exists_exists. eauto.
Qed.

(** X1. With a token that does not verify, [changePassword] raises the
    error of jsonwebtoken itself, [JsonWebTokenError] or
    [TokenExpiredError], and not an [UnauthorizedException]; nothing is
    written. *)
Theorem changePassword_invalid_token
    (lib : Libraries) (env : Env) (token oldPassword newPassword : string)
    (db : Store)
    (Hinvalid : ¬ token_valid lib token (now env)) :
  ∃ e, changePassword lib env token oldPassword newPassword db = (Err e, db)
       ∧ (e = JsonWebTokenError ∨ e = TokenExpiredError)
       ∧ instanceof_UnauthorizedException e = false.
Proof.
  rewrite changePassword_eq.
  destruct (jwt_verify lib token (now env)) as [p|e] eqn:Hv.
  - exfalso. apply Hinvalid. exists p. by apply jwt_verify_Ok.
  - exists e. split; [done|].
    destruct (jwt_verify_Err _ _ _ _ Hv) as [[-> | ->] _]; auto.
Qed.

Lemma changePassword_invalid_token_witness :
  ∃ e, changePassword Fixture.stub_lib (Fixture.env_at "x1" 5000000 0)
         "u1.1000" "secret123" "newpass1" Fixture.store_alice
       = (Err e, Fixture.store_alice)
       ∧ (e = JsonWebTokenError ∨ e = TokenExpiredError)
       ∧ instanceof_UnauthorizedException e = false.
Proof.
  apply (changePassword_invalid_token Fixture.stub_lib
           (Fixture.env_at "x1" 5000000 0) "u1.1000" "secret123" "newpass1"
           Fixture.store_alice).
  intros [p [Hp Hexp]]. vm_compute in Hp. injection Hp as <-.
  specialize (Hexp 4600 eq_refl). vm_compute in Hexp. discriminate.
Defined.

(** X2. With a token that verifies, [changePassword] raises the same
    [UnauthorizedException("Invalid credentials")] when the token's user
    has no row and when the old password does not match the stored
    digest; nothing is written. *)
Theorem changePassword_wrong_credentials
    (lib : Libraries) (env : Env) (token oldPassword newPassword : string)
    (db : Store) (decoded : JwtPayload)
    (Htoken : jwt_verify lib token (now env) = Ok decoded)
    (Hread : fault env UserFindUnique = false) :
  (user_by_id db (jwt_userId decoded) = None →
   changePassword lib env token oldPassword newPassword db
   = (Err (UnauthorizedException "Invalid credentials"), db))
  ∧ (∀ user h,
       user_by_id db (jwt_userId decoded) = Some user →
       user_fields user !! "password" = Some (VStr h) →
       bcrypt_compare lib oldPassword h = false →
       changePassword lib env token oldPassword newPassword db
       = (Err (UnauthorizedException "Invalid credentials"), db)).
Proof.
  rewrite changePassword_eq, Htoken, Hread. split.
  - by intros ->.
  - intros user h -> Hpw Hcmp. unfold bcrypt_compare_js.
    by rewrite Hpw, Hcmp.
Qed.

Lemma changePassword_wrong_credentials_witness :
  changePassword Fixture.stub_lib (Fixture.env_at "x2" 2000000 0)
    "u9.1000" "secret123" "newpass1" Fixture.store_alice
  = (Err (UnauthorizedException "Invalid credentials"), Fixture.store_alice)
  ∧ changePassword Fixture.stub_lib (Fixture.env_at "x2" 2000000 0)
      "u1.1000" "wrong" "newpass1" Fixture.store_alice
    = (Err (UnauthorizedException "Invalid credentials"),
       Fixture.store_alice).
Proof.
  split.
  - apply (proj1 (changePassword_wrong_credentials Fixture.stub_lib
                    (Fixture.env_at "x2" 2000000 0) "u9.1000" "secret123"
                    "newpass1" Fixture.store_alice
                    (mkJwtPayload "u9" 1000 (Some 4600))
                    ltac:(vm_compute; reflexivity) eq_refl)).
    vm_compute. reflexivity.
  - apply (proj2 (changePassword_wrong_credentials Fixture.stub_lib
                    (Fixture.env_at "x2" 2000000 0) "u1.1000" "wrong"
                    "newpass1" Fixture.store_alice
                    (mkJwtPayload "u1" 1000 (Some 4600))
                    ltac:(vm_compute; reflexivity) eq_refl)
             Fixture.alice "$2b$10$secret123");
      vm_compute; reflexivity.
Defined.

(** A successful password change. *)
Lemma changePassword_Ok (lib : Libraries) (env : Env)
    (token oldPassword newPassword : string) (db db' : Store) :
  changePassword lib env token oldPassword newPassword db = (Ok tt, db') →
  ∃ decoded user h,
    jwt_verify lib token (now env) = Ok decoded
    ∧ user_by_id db (jwt_userId decoded) = Some user
    ∧ user_fields user !! "password" = Some (VStr h)
    ∧ bcrypt_compare lib oldPassword h = true
    ∧ db' = mkStore
              (set_fields (jwt_userId decoded)
                 {[ "password" :=
                      VStr (bcrypt_hash lib newPassword (salt env)) ]}
                 (users db))
              (agents db) (corporateUsers db) (otpCodes db) (sessions db).
Proof.
  rewrite changePassword_eq.
  destruct (jwt_verify lib token (now env)) as [p|e]; [|congruence].
  destruct (fault env UserFindUnique); [congruence|].
  destruct (user_by_id db (jwt_userId p)) as [user|] eqn:Hu; [|congruence].
  unfold bcrypt_compare_js.
  destruct (user_fields user !! "password") as [[h| | |]|] eqn:Hpw;
    try congruence.
  destruct (bcrypt_compare lib oldPassword h) eqn:Hcmp; [|congruence].
  apply user_by_id_Some in Hu as Hu'. destruct Hu' as [Hin Hid].
  unfold user_update. unfold_M.
  destruct (fault env UserUpdate); [congruence|].
  case_bool_decide; [|congruence].
  intros [= <-]. exists p, user, h. rewrite Hid. done.
Qed.

Lemma set_fields_Forall2 (id : string) (data : obj) (l : list User) :
  Forall2
    (λ u u',
       user_id u' = user_id u
       ∧ if bool_decide (user_id u = id)
         then ∀ k, user_fields u' !! k
                   = match data !! k with
                     | Some v => Some v
                     | None => user_fields u !! k
                     end
         else u' = u)
    l (set_fields id data l).
Proof.
  induction l as [|u l IH]; simpl; constructor; [|exact IH].
  case_bool_decide; [|done]. split; [done|].
  intros k. simpl. rewrite lookup_union.
  destruct (data !! k), (user_fields u !! k); reflexivity.
Qed.

Lemma user_by_email_set_fields (db : Store) (id email : string) (data : obj)
    (ags cs : list Profile) (os : list OtpCode) (ss : list Session) :
  data !! "email" = None →
  user_by_email (mkStore (set_fields id data (users db)) ags cs os ss) email
  = (λ u, if bool_decide (user_id u = id)
          then mkUser (user_id u) (data ∪ user_fields u) else u)
    <$> user_by_email db email.
Proof.
  intros Hdata. unfold user_by_email, set_fields. simpl.
  induction (users db) as [|u l IH]; simpl; [done|].
  assert ((if bool_decide (user_id u = id)
           then mkUser (user_id u) (data ∪ user_fields u) else u).(user_fields)
          !! "email" = user_fields u !! "email") as ->.
  { case_bool_decide; [|done]. simpl.
    rewrite lookup_union, Hdata. by destruct (user_fields u !! "email"). }
  destruct (bool_decide (user_fields u !! "email" = Some (VStr email)));
    [done|exact IH].
Qed.

(** X3. A successful [changePassword] rewrites the password column, and
    only that column, of the rows of the token's user to the digest of the
    new password; every other user row and the tables [agents],
    [corporate_users], [otp_codes] and [sessions] are left as they were,
    so the sessions and tokens issued before the change survive it. *)
Theorem changePassword_rewrites_only_password
    (lib : Libraries) (env : Env) (token oldPassword newPassword : string)
    (db db' : Store)
    (Hok : changePassword lib env token oldPassword newPassword db
           = (Ok tt, db')) :
  ∃ decoded,
    jwt_verify lib token (now env) = Ok decoded
    ∧ Forall2
        (λ u u',
           user_id u' = user_id u
           ∧ if bool_decide (user_id u = jwt_userId decoded)
             then user_fields u' !! "password"
                  = Some (VStr (bcrypt_hash lib newPassword (salt env)))
                  ∧ ∀ k, k ≠ "password" →
                         user_fields u' !! k = user_fields u !! k
             else u' = u)
        (users db) (users db')
    ∧ agents db' = agents db
    ∧ corporateUsers db' = corporateUsers db
    ∧ otpCodes db' = otpCodes db
    ∧ sessions db' = sessions db.
Proof.
  apply changePassword_Ok in Hok
    as (decoded & user & h & Hv & _ & _ & _ & ->).
  exists decoded. split; [done|]. simpl. split; [|done].
  eapply Forall2_impl; [apply set_fields_Forall2|].
  intros u u' [Hid Hrow]. split; [done|].
  case_bool_decide; [|done]. split.
  - rewrite Hrow. by rewrite lookup_singleton_eq.
  - intros k Hk. rewrite Hrow. by rewrite lookup_singleton_ne.
Qed.

Lemma changePassword_rewrites_only_password_witness :
  ∃ decoded,
    jwt_verify Fixture.stub_lib "u1.1000"
      (now (Fixture.env_at "x3" 2000000 0)) = Ok decoded
    ∧ Forall2
        (λ u u',
           user_id u' = user_id u
           ∧ if bool_decide (user_id u = jwt_userId decoded)
             then user_fields u' !! "password"
                  = Some (VStr (bcrypt_hash Fixture.stub_lib "newpass1"
                                  (salt (Fixture.env_at "x3" 2000000 0))))
                  ∧ ∀ k, k ≠ "password" →
                         user_fields u' !! k = user_fields u !! k
             else u' = u)
        (users Fixture.store_session)
        (users (snd (changePassword Fixture.stub_lib
                       (Fixture.env_at "x3" 2000000 0) "u1.1000"
                       "secret123" "newpass1" Fixture.store_session)))
    ∧ agents (snd (changePassword Fixture.stub_lib
                     (Fixture.env_at "x3" 2000000 0) "u1.1000"
                     "secret123" "newpass1" Fixture.store_session))
      = agents Fixture.store_session
    ∧ corporateUsers (snd (changePassword Fixture.stub_lib
                             (Fixture.env_at "x3" 2000000 0) "u1.1000"
                             "secret123" "newpass1" Fixture.store_session))
      = corporateUsers Fixture.store_session
    ∧ otpCodes (snd (changePassword Fixture.stub_lib
                       (Fixture.env_at "x3" 2000000 0) "u1.1000"
                       "secret123" "newpass1" Fixture.store_session))
      = otpCodes Fixture.store_session
    ∧ sessions (snd (changePassword Fixture.stub_lib
                       (Fixture.env_at "x3" 2000000 0) "u1.1000"
                       "secret123" "newpass1" Fixture.store_session))
      = sessions Fixture.store_session.
Proof.
  apply (changePassword_rewrites_only_password Fixture.stub_lib
           (Fixture.env_at "x3" 2000000 0) "u1.1000" "secret123" "newpass1"
           Fixture.store_session).
  vm_compute. reflexivity.
Defined.

(** X4. After a successful [changePassword], a login with the email of
    the token's user is decided by the digest of the new password: it
    reaches token issuance exactly when bcrypt accepts the submitted
    password against that digest, and raises
    [UnauthorizedException("Invalid credentials")] otherwise. *)
Theorem login_after_changePassword
    (sch : Schema) (lib : Libraries) (env env' : Env)
    (token oldPassword newPassword email password : string)
    (db db' : Store) (user : User)
    (Hok : changePassword lib env token oldPassword newPassword db
           = (Ok tt, db'))
    (Hemail : user_by_email db email = Some user)
    (Howner : ∃ decoded, jwt_verify lib token (now env) = Ok decoded
                         ∧ jwt_userId decoded = user_id user)
    (Hread : fault env' UserFindUnique = false) :
  login sch lib env' email password db'
  = if bcrypt_compare lib password (bcrypt_hash lib newPassword (salt env))
    then generateToken sch lib env' (user_id user) db'
    else (Err (UnauthorizedException "Invalid credentials"), db').
Proof.
  apply changePassword_Ok in Hok
    as (decoded & user0 & h & Hv & _ & _ & _ & ->).
  destruct Howner as (decoded' & Hv' & Hid).
  rewrite Hv in Hv'. injection Hv' as <-.
  set (data := {[ "password" :=
                    VStr (bcrypt_hash lib newPassword (salt env)) ]} : obj).
  assert (user_by_email
            (mkStore (set_fields (jwt_userId decoded) data (users db))
               (agents db) (corporateUsers db) (otpCodes db) (sessions db))
            email
          = Some (mkUser (user_id user) (data ∪ user_fields user))) as Hfind.
  { rewrite user_by_email_set_fields by done. rewrite Hemail. simpl.
    by rewrite bool_decide_eq_true_2. }
  rewrite (login_known_email sch lib env' email password
             (bcrypt_hash lib newPassword (salt env)) _ _ Hread Hfind).
  - reflexivity.
  - simpl. apply lookup_union_Some_l. apply lookup_singleton_eq.
Qed.

Lemma login_after_changePassword_witness :
  login Fixture.lenient_schema Fixture.stub_lib
    (Fixture.env_at "x4b" 2500000 0) "a@x.com" "newpass1"
    (snd (changePassword Fixture.stub_lib (Fixture.env_at "x4" 2000000 0)
            "u1.1000" "secret123" "newpass1" Fixture.store_alice))
  = generateToken Fixture.lenient_schema Fixture.stub_lib
      (Fixture.env_at "x4b" 2500000 0) "u1"
      (snd (changePassword Fixture.stub_lib (Fixture.env_at "x4" 2000000 0)
              "u1.1000" "secret123" "newpass1" Fixture.store_alice))
  ∧ login Fixture.lenient_schema Fixture.stub_lib
      (Fixture.env_at "x4b" 2500000 0) "a@x.com" "secret123"
      (snd (changePassword Fixture.stub_lib (Fixture.env_at "x4" 2000000 0)
              "u1.1000" "secret123" "newpass1" Fixture.store_alice))
    = (Err (UnauthorizedException "Invalid credentials"),
       snd (changePassword Fixture.stub_lib (Fixture.env_at "x4" 2000000 0)
              "u1.1000" "secret123" "newpass1" Fixture.store_alice)).
Proof.
  set (db1 := snd (changePassword Fixture.stub_lib
                     (Fixture.env_at "x4" 2000000 0)
                     "u1.1000" "secret123" "newpass1" Fixture.store_alice)).
  assert (changePassword Fixture.stub_lib (Fixture.env_at "x4" 2000000 0)
            "u1.1000" "secret123" "newpass1" Fixture.store_alice
          = (Ok tt, db1)) as Hok by (vm_compute; reflexivity).
  assert (∃ decoded,
            jwt_verify Fixture.stub_lib "u1.1000"
              (now (Fixture.env_at "x4" 2000000 0)) = Ok decoded
            ∧ jwt_userId decoded = user_id Fixture.alice) as Howner.
  { exists (mkJwtPayload "u1" 1000 (Some 4600)).
    split; vm_compute; reflexivity. }
  assert (user_by_email Fixture.store_alice "a@x.com" = Some Fixture.alice)
    as Hemail by (vm_compute; reflexivity).
  split.
  - rewrite (login_after_changePassword Fixture.lenient_schema
               Fixture.stub_lib (Fixture.env_at "x4" 2000000 0)
               (Fixture.env_at "x4b" 2500000 0) "u1.1000" "secret123"
               "newpass1" "a@x.com" "newpass1" Fixture.store_alice db1
               Fixture.alice Hok Hemail Howner eq_refl).
    reflexivity.
  - rewrite (login_after_changePassword Fixture.lenient_schema
               Fixture.stub_lib (Fixture.env_at "x4" 2000000 0)
               (Fixture.env_at "x4b" 2500000 0) "u1.1000" "secret123"
               "newpass1" "a@x.com" "secret123" Fixture.store_alice db1
               Fixture.alice Hok Hemail Howner eq_refl).
    reflexivity.
Defined.

(** ** The lifetime of an issued token *)

Lemma seconds_le (t t' : Z) :
  t' ≤ t + 3599000 → t' / 1000 < t / 1000 + 3600.
Proof. intros H. Z.div_mod_to_equations. lia. Qed.

Lemma seconds_ge (t t' : Z) :
  t + 3600000 ≤ t' → t / 1000 + 3600 ≤ t' / 1000.
Proof. intros H. Z.div_mod_to_equations. lia. Qed.

(** X5. A token issued by [generateToken] at time [t] carries the user id
    it was issued for and lives for one hour counted in whole seconds,
    provided jsonwebtoken decodes what it encoded: the token is the
    encoding of the payload [generateToken] signs, so [validateToken]
    answers [true] at a time [t'] exactly when
    [t' / 1000 < t / 1000 + 3600]; it verifies at every time up to
    [t + 3599000] and is refused as expired from [t + 3600000] on. *)
Theorem issued_token_lifetime
    (sch : Schema) (lib : Libraries) (env : Env) (userId tok : string)
    (db db' : Store)
    (Hissued : generateToken sch lib env userId db = (Ok tok, db'))
    (Hround : jwt_decode lib
                (jwt_encode lib (jwt_payload_1h userId (now env)) SECRET)
                SECRET
              = Some (jwt_payload_1h userId (now env))) :
  tok = jwt_encode lib (jwt_payload_1h userId (now env)) SECRET
  ∧ (∀ env' db2,
       validateToken lib env' tok db2
       = (Ok (bool_decide (now env' / 1000 < now env / 1000 + 3600)), db2))
  ∧ (∀ t', t' ≤ now env + 3599000 →
           ∃ p, jwt_verify lib tok t' = Ok p ∧ jwt_userId p = userId)
  ∧ (∀ t', now env + 3600000 ≤ t' →
           jwt_verify lib tok t' = Err TokenExpiredError).
Proof.
  apply generateToken_Ok in Hissued as (_ & _ & _ & -> & _).
  unfold jwt_sign_1h.
  assert (∀ t', jwt_verify lib
                  (jwt_encode lib (jwt_payload_1h userId (now env)) SECRET) t'
                = if bool_decide (now env / 1000 + 3600 ≤ t' / 1000)
                  then Err TokenExpiredError
                  else Ok (jwt_payload_1h userId (now env)))
    as Hverify.
  { intros t'. unfold jwt_verify. by rewrite Hround. }
  split; [done|]. split; [|split].
  - intros env' db2. rewrite validateToken_eq, Hverify.
    repeat case_bool_decide; try done; lia.
  - intros t' Ht'. rewrite Hverify.
    pose proof (seconds_le _ _ Ht').
    rewrite bool_decide_eq_false_2 by lia. eauto.
  - intros t' Ht'. rewrite Hverify.
    pose proof (seconds_ge _ _ Ht').
    by rewrite bool_decide_eq_true_2 by lia.
Qed.

Lemma issued_token_lifetime_witness :
  "u1.1000"
  = jwt_encode Fixture.stub_lib
      (jwt_payload_1h "u1" (now (Fixture.env_at "x5" 1000000 0))) SECRET
  ∧ (∀ env' db2,
       validateToken Fixture.stub_lib env' "u1.1000" db2
       = (Ok (bool_decide
                (now env' / 1000
                 < now (Fixture.env_at "x5" 1000000 0) / 1000 + 3600)), db2))
  ∧ (∀ t', t' ≤ now (Fixture.env_at "x5" 1000000 0) + 3599000 →
           ∃ p, jwt_verify Fixture.stub_lib "u1.1000" t' = Ok p
                ∧ jwt_userId p = "u1")
  ∧ (∀ t', now (Fixture.env_at "x5" 1000000 0) + 3600000 ≤ t' →
           jwt_verify Fixture.stub_lib "u1.1000" t' = Err TokenExpiredError).
Proof.
  apply (issued_token_lifetime Fixture.lenient_schema Fixture.stub_lib
           (Fixture.env_at "x5" 1000000 0) "u1" "u1.1000"
           Fixture.store_alice
           (snd (generateToken Fixture.lenient_schema Fixture.stub_lib
                   (Fixture.env_at "x5" 1000000 0) "u1"
                   Fixture.store_alice))).
  - vm_compute. reflexivity.
  - vm_compute. reflexivity.
Defined.

(** ** Refresh and logout *)

Lemma refreshToken_eq (sch : Schema) (lib : Libraries) (env : Env)
    (token : string) (db : Store) :
  refreshToken sch lib env token db
  = match jwt_verify lib token (now env) with
    | Err _ => (Err (UnauthorizedException "Invalid or expired token"), db)
    | Ok decoded => generateToken sch lib env (jwt_userId decoded) db
    end.
Proof.
  unfold refreshToken. unfold_M.
  destruct (jwt_verify lib token (now env)); reflexivity.
Qed.

(** X7. [refreshToken] raises
    [UnauthorizedException("Invalid or expired token")] on a token that
    does not verify and otherwise issues a token for the decoded user id
    without looking for the session or the user of the presented token:
    it returns the new token whenever the session insert is carried out
    and the new token is not yet in [sessions], and its answer depends on
    the store through [sessions] only; so a token whose session was
    deleted by logout, or whose user has no row, is refreshed like any
    other.  A failure of the session insert is raised as it is, not as an
    [UnauthorizedException], and the session rows present before the call
    are all kept. *)
Theorem refreshToken_ignores_store
    (sch : Schema) (lib : Libraries) (env : Env) (token : string)
    (db : Store) :
  (∀ e, jwt_verify lib token (now env) = Err e →
        refreshToken sch lib env token db
        = (Err (UnauthorizedException "Invalid or expired token"), db))
  ∧ (∀ decoded,
       jwt_verify lib token (now env) = Ok decoded →
       refreshToken sch lib env token db
       = generateToken sch lib env (jwt_userId decoded) db
       ∧ (fault env SessionCreate = true →
          refreshToken sch lib env token db
          = (Err (StorageError SessionCreate), db))
       ∧ (fault env SessionCreate = false →
          sessions_userId_nullable sch = true →
          sessions_token_free
            (jwt_sign_1h lib (jwt_userId decoded) (now env)) db = true →
          fst (refreshToken sch lib env token db)
          = Ok (jwt_sign_1h lib (jwt_userId decoded) (now env))))
  ∧ (∀ db2, sessions db2 = sessions db →
            fst (refreshToken sch lib env token db2)
            = fst (refreshToken sch lib env token db))
  ∧ sessions db `prefix_of` sessions (snd (refreshToken sch lib env token db)).
Proof.
  split; [|split; [|split]].
  - intros e He. by rewrite refreshToken_eq, He.
  - intros decoded Hd. rewrite refreshToken_eq, Hd. split; [done|].
    split.
    + intros Hf. by rewrite generateToken_eq, Hf.
    + intros Hf Hnull Hfree. by rewrite generateToken_eq, Hf, Hnull, Hfree.
  - intros db2 Hsessions. rewrite !refreshToken_eq.
    destruct (jwt_verify lib token (now env)); [|done].
    rewrite !generateToken_eq. unfold sessions_token_free.
    rewrite Hsessions.
    destruct (fault env SessionCreate); [done|].
    destruct (sessions_userId_nullable sch); [|done].
    destruct (negb _); done.
  - rewrite refreshToken_eq.
    destruct (jwt_verify lib token (now env)); [|done].
    rewrite generateToken_eq.
    destruct (fault env SessionCreate); [done|].
    destruct (sessions_userId_nullable sch); [|done].
    destruct (sessions_token_free _ db); [|done].
    simpl. by apply prefix_app_r.
Qed.

(** X7 on the fixture: the token of Alice is refreshed after her session
    was deleted by logout, and a token of a user without a row is
    refreshed too. *)
Lemma refreshToken_ignores_store_witness :
  fst (refreshToken Fixture.lenient_schema Fixture.stub_lib
         (Fixture.env_at "x7" 2000000 0) "u1.1000"
         (snd (logout (Fixture.env_at "x7a" 1500000 0) "u1.1000"
                 Fixture.store_session)))
  = Ok "u1.2000"
  ∧ fst (refreshToken Fixture.lenient_schema Fixture.stub_lib
           (Fixture.env_at "x7" 2000000 0) "u9.1000" Fixture.store_session)
    = Ok "u9.2000"
  ∧ refreshToken Fixture.lenient_schema Fixture.stub_lib
      (Fixture.env_at "x7" 2000000 0) "garbage" Fixture.store_session
    = (Err (UnauthorizedException "Invalid or expired token"),
       Fixture.store_session).
Proof.
  split; [|split].
  - apply (proj2 (proj2 (proj1 (proj2 (refreshToken_ignores_store
             Fixture.lenient_schema Fixture.stub_lib
             (Fixture.env_at "x7" 2000000 0) "u1.1000"
             (snd (logout (Fixture.env_at "x7a" 1500000 0) "u1.1000"
                     Fixture.store_session))))
             (mkJwtPayload "u1" 1000 (Some 4600))
             ltac:(vm_compute; reflexivity))));
      vm_compute; reflexivity.
  - apply (proj2 (proj2 (proj1 (proj2 (refreshToken_ignores_store
             Fixture.lenient_schema Fixture.stub_lib
             (Fixture.env_at "x7" 2000000 0) "u9.1000"
             Fixture.store_session))
             (mkJwtPayload "u9" 1000 (Some 4600))
             ltac:(vm_compute; reflexivity))));
      vm_compute; reflexivity.
  - apply (proj1 (refreshToken_ignores_store
               Fixture.lenient_schema Fixture.stub_lib
               (Fixture.env_at "x7" 2000000 0) "garbage"
               Fixture.store_session) JsonWebTokenError).
    vm_compute. reflexivity.
Defined.

(** X8. A logout that the store carries out removes exactly the session
    rows of the token: a row is in [sessions] afterwards if and only if it
    was there before and holds another token; no other table changes; and
    logging out again, at any time, returns and changes nothing. *)
Theorem logout_selective_idempotent
    (env : Env) (token : string) (db : Store)
    (Hdelete : fault env SessionDelete = false) :
  ∃ db1,
    logout env token db = (Ok tt, db1)
    ∧ (∀ s, s ∈ sessions db1 ↔ s ∈ sessions db ∧ session_token s ≠ token)
    ∧ users db1 = users db
    ∧ agents db1 = agents db
    ∧ corporateUsers db1 = corporateUsers db
    ∧ otpCodes db1 = otpCodes db
    ∧ ∀ env2, logout env2 token db1 = (Ok tt, db1).
Proof.
  rewrite logout_eq, Hdelete. eexists. split; [reflexivity|]. simpl.
  split; [|repeat split].
  - intros s. rewrite list_elem_of_filter. tauto.
  - intros env2. rewrite logout_eq. f_equal.
    destruct (fault env2 SessionDelete); [done|]. simpl. f_equal.
    apply filter_Forall_id. apply Forall_forall.
    intros s Hs. by apply list_elem_of_filter in Hs as [? _].
Qed.

Lemma logout_selective_idempotent_witness :
  ∃ db1,
    logout (Fixture.env_at "x8" 1500000 0) "u1.1000" Fixture.store_session
    = (Ok tt, db1)
    ∧ (∀ s, s ∈ sessions db1
            ↔ s ∈ sessions Fixture.store_session
              ∧ session_token s ≠ "u1.1000")
    ∧ users db1 = users Fixture.store_session
    ∧ agents db1 = agents Fixture.store_session
    ∧ corporateUsers db1 = corporateUsers Fixture.store_session
    ∧ otpCodes db1 = otpCodes Fixture.store_session
    ∧ ∀ env2, logout env2 "u1.1000" db1 = (Ok tt, db1).
Proof.
  apply (logout_selective_idempotent (Fixture.env_at "x8" 1500000 0)
           "u1.1000" Fixture.store_session).
  reflexivity.
Defined.

(** ** Flows across operations *)

Lemma find_app_None {A : Type} (f : A → bool) (l1 l2 : list A) :
  find f l1 = None → find f (l1 ++ l2) = find f l2.
Proof.
  induction l1 as [|x l1 IH]; simpl; [done|].
  destruct (f x); [done|exact IH].
Qed.

Lemma registered_user_field (lib : Libraries) (env : Env) (userDetails : obj)
    (p k : string) :
  k ≠ "password" → k ≠ "username" → k ≠ "id" →
  user_fields (registered_user lib env userDetails p) !! k
  = match userDetails !! k with
    | Some v => Some v
    | None => users_defaults !! k
    end.
Proof.
  intros Hk1 Hk2 Hk3. unfold registered_user, register_user_data.
  simpl.
  rewrite lookup_union, lookup_delete_ne, lookup_insert_ne, lookup_delete_ne
    by done.
  destruct (userDetails !! k), (users_defaults !! k); reflexivity.
Qed.

Lemma jwt_sign_1h_same_second (lib : Libraries) (userId : string) (t t' : Z) :
  t' / 1000 = t / 1000 → jwt_sign_1h lib userId t' = jwt_sign_1h lib userId t.
Proof. intros H. unfold jwt_sign_1h, jwt_payload_1h. by rewrite H. Qed.

(** X9. After a successful registration with an email that no user row
    held before, a login with that email and the registered password,
    which bcrypt accepts against its own digest, reaches token issuance
    for the new user, whose id is the payload's [id] if it has one.  It
    returns the token signed for that id when the session insert is
    carried out and the token is not yet in [sessions]; made within the
    second of the registration it signs the token of the registration
    again, and the insert is refused by the unique index on
    [sessions.token].  A password that bcrypt rejects against the stored
    digest is refused. *)
Theorem login_after_register
    (sch : Schema) (lib : Libraries) (env env' : Env) (userDetails : obj)
    (email p tok : string) (db db' : Store)
    (Hok : register sch lib env userDetails db = (Ok tok, db'))
    (Hemail : userDetails !! "email" = Some (VStr email))
    (Hpassword : userDetails !! "password" = Some (VStr p))
    (Hfresh : user_by_email db email = None)
    (Hbcrypt : bcrypt_compare lib p (bcrypt_hash lib p (salt env)) = true)
    (Hread : fault env' UserFindUnique = false) :
  login sch lib env' email p db'
  = generateToken sch lib env' (payload_key env UserCreate userDetails) db'
  ∧ (fault env' SessionCreate = false →
     sessions_token_free
       (jwt_sign_1h lib (payload_key env UserCreate userDetails) (now env'))
       db' = true →
     fst (login sch lib env' email p db')
     = Ok (jwt_sign_1h lib (payload_key env UserCreate userDetails)
             (now env')))
  ∧ (fault env' SessionCreate = false →
     now env' / 1000 = now env / 1000 →
     login sch lib env' email p db'
     = (Err (ConstraintViolation "sessions_token_key"), db'))
  ∧ (∀ p', bcrypt_compare lib p' (bcrypt_hash lib p (salt env)) = false →
           login sch lib env' email p' db'
           = (Err (UnauthorizedException "Invalid credentials"), db')).
Proof.
  apply register_Ok in Hok
    as (p0 & Hp0 & _ & Hu & _ & _ & _ & Hs & Hnull & _).
  rewrite Hpassword in Hp0. injection Hp0 as <-.
  assert (user_by_email db' email
          = Some (registered_user lib env userDetails p)) as Hfind.
  { unfold user_by_email in *. rewrite Hu, find_app_None by done.
    cbn [find]. rewrite registered_user_field by done. rewrite Hemail.
    by rewrite bool_decide_eq_true_2. }
  assert (user_fields (registered_user lib env userDetails p) !! "password"
          = Some (VStr (bcrypt_hash lib p (salt env)))) as Hstored.
  { unfold registered_user, register_user_data. simpl.
    apply lookup_union_Some_l. rewrite lookup_delete_ne by done.
    apply lookup_insert_eq. }
  split; [|split; [|split]].
  - rewrite (login_known_email _ _ _ _ _ _ _ _ Hread Hfind Hstored).
    by rewrite Hbcrypt.
  - intros Hf Hfree.
    rewrite (login_known_email _ _ _ _ _ _ _ _ Hread Hfind Hstored).
    rewrite Hbcrypt. simpl. by rewrite generateToken_eq, Hf, Hnull, Hfree.
  - intros Hf Hsecond.
    rewrite (login_known_email _ _ _ _ _ _ _ _ Hread Hfind Hstored).
    rewrite Hbcrypt. simpl. rewrite generateToken_eq, Hf, Hnull.
    rewrite (jwt_sign_1h_same_second _ _ _ _ Hsecond).
    unfold sessions_token_free. rewrite bool_decide_eq_true_2; [done|].
    rewrite Hs. apply Exists_app. right. by left.
  - intros p' Hp'.
    rewrite (login_known_email _ _ _ _ _ _ _ _ Hread Hfind Hstored).
    by rewrite Hp'.
Qed.

Lemma login_after_register_witness :
  fst (login Fixture.lenient_schema Fixture.stub_lib
         (Fixture.env_at "x9b" 1500000 0) "a@x.com" "secret123"
         (snd (register Fixture.lenient_schema Fixture.stub_lib
                 (Fixture.env_at "x9" 1000000 23456)
                 Fixture.standard_details Fixture.empty_store)))
  = Ok "x9-user.1500"
  ∧ fst (login Fixture.lenient_schema Fixture.stub_lib
           (Fixture.env_at "x9b" 1500000 0) "a@x.com" "guess"
           (snd (register Fixture.lenient_schema Fixture.stub_lib
                   (Fixture.env_at "x9" 1000000 23456)
                   Fixture.standard_details Fixture.empty_store)))
    = Err (UnauthorizedException "Invalid credentials").
Proof.
  set (db1 := snd (register Fixture.lenient_schema Fixture.stub_lib
                     (Fixture.env_at "x9" 1000000 23456)
                     Fixture.standard_details Fixture.empty_store)).
  assert (register Fixture.lenient_schema Fixture.stub_lib
            (Fixture.env_at "x9" 1000000 23456)
            Fixture.standard_details Fixture.empty_store
          = (Ok "x9-user.1000", db1)) as Hok by (vm_compute; reflexivity).
  pose proof (login_after_register Fixture.lenient_schema Fixture.stub_lib
                (Fixture.env_at "x9" 1000000 23456)
                (Fixture.env_at "x9b" 1500000 0) Fixture.standard_details
                "a@x.com" "secret123" "x9-user.1000" Fixture.empty_store db1
                Hok ltac:(vm_compute; reflexivity)
                ltac:(vm_compute; reflexivity) eq_refl
                ltac:(vm_compute; reflexivity) eq_refl)
    as (_ & Hright & _ & Hwrong).
  split.
  - rewrite Hright; [vm_compute; reflexivity|reflexivity|].
    vm_compute. reflexivity.
  - rewrite (Hwrong "guess"); [reflexivity|]. vm_compute. reflexivity.
Defined.

(** X10. [register] writes the payload into the user row as it comes: the
    payload's [id], if it has one, is the primary key of the created row;
    each other entry of the payload than [username] and [password] is a
    column of the row, the defaults [isActive = true] and
    [isVerified = false] apply only to columns the payload leaves out, and
    [username] is dropped.  A payload that carries [isVerified: true]
    therefore creates a verified user without any OTP check. *)
Theorem register_user_row_takes_payload
    (sch : Schema) (lib : Libraries) (env : Env) (userDetails : obj)
    (db db' : Store) (tok : string)
    (Hok : register sch lib env userDetails db = (Ok tok, db')) :
  ∃ u : User,
    users db' = users db ++ [u]
    ∧ (∀ id, userDetails !! "id" = Some (VStr id) → user_id u = id)
    ∧ (userDetails !! "id" = None → user_id u = new_id env UserCreate)
    ∧ (∀ k v, k ≠ "username" → k ≠ "password" → k ≠ "id" →
              userDetails !! k = Some v → user_fields u !! k = Some v)
    ∧ (userDetails !! "isVerified" = None →
       user_fields u !! "isVerified" = Some (VBool false))
    ∧ (userDetails !! "isActive" = None →
       user_fields u !! "isActive" = Some (VBool true))
    ∧ user_fields u !! "username" = None.
Proof.
  apply register_Ok in Hok as (p & _ & _ & Hu & _).
  exists (registered_user lib env userDetails p).
  split; [done|]. split; [|split; [|split; [|split; [|split]]]].
  - intros id Hid. simpl. unfold payload_key. by rewrite Hid.
  - intros Hid. simpl. unfold payload_key. by rewrite Hid.
  - intros k v Hk1 Hk2 Hk3 Hv. rewrite registered_user_field by done.
    by rewrite Hv.
  - intros Hnone. rewrite registered_user_field by done. by rewrite Hnone.
  - intros Hnone. rewrite registered_user_field by done. by rewrite Hnone.
  - unfold registered_user, register_user_data. simpl.
    rewrite lookup_union, lookup_delete_ne, lookup_insert_ne, lookup_delete_eq
      by done.
    reflexivity.
Qed.

Lemma register_user_row_takes_payload_witness :
  ∃ u : User,
    users (snd (register Fixture.lenient_schema Fixture.stub_lib
                  (Fixture.env_at "x10" 1000000 23456)
                  Scenario.verified_details Fixture.empty_store))
    = users Fixture.empty_store ++ [u]
    ∧ user_id u = "u7"
    ∧ user_fields u !! "isVerified" = Some (VBool true)
    ∧ user_fields u !! "username" = None.
Proof.
  destruct (register_user_row_takes_payload Fixture.lenient_schema
              Fixture.stub_lib (Fixture.env_at "x10" 1000000 23456)
              Scenario.verified_details Fixture.empty_store
              (snd (register Fixture.lenient_schema Fixture.stub_lib
                      (Fixture.env_at "x10" 1000000 23456)
                      Scenario.verified_details Fixture.empty_store))
              "u7.1000" ltac:(vm_compute; reflexivity))
    as (u & Hu & Hid & _ & Hcols & _ & _ & Hname).
  exists u. split; [exact Hu|]. split; [|split; [|exact Hname]].
  - apply Hid. vm_compute. reflexivity.
  - apply Hcols; [done|done|done|]. vm_compute. reflexivity.
Defined.

(** The run of an OTP flow whose lookup finds a row. *)
Lemma verify_otp_run (env : Env) (code : string) (type : OtpType)
    (message : string) (data : obj) (db : Store) (r : OtpCode) :
  fault env OtpCodeFindFirst = false →
  fault env UserUpdate = false →
  find (otp_where code type (now env)) (otpCodes db) = Some r →
  Exists (λ u, user_id u = otp_userId r) (users db) →
  verify_otp env code type message data db
  = if fault env OtpCodeUpdate
    then (Err (StorageError OtpCodeUpdate),
          mkStore (set_fields (otp_userId r) data (users db)) (agents db)
                  (corporateUsers db) (otpCodes db) (sessions db))
    else (Ok tt,
          mkStore (set_fields (otp_userId r) data (users db)) (agents db)
                  (corporateUsers db) (consume (otp_id r) (otpCodes db))
                  (sessions db)).
Proof.
  intros Hf1 Hf2 Hfind Huser. unfold verify_otp. rewrite rethrow_id.
  unfold otpCode_findFirst, user_update, otpCode_update_verified. unfold_M.
  rewrite Hf1, Hfind, Hf2.
  rewrite bool_decide_eq_true_2 by done.
  destruct (fault env OtpCodeUpdate); [reflexivity|]. simpl.
  rewrite bool_decide_eq_true_2; [reflexivity|].
  apply find_Some_elem in Hfind as [Hin _]. apply Exists_exists. eauto.
Qed.

(** X11. The password-reset flow end to end.  After
    [requestPasswordReset] for the email of a user, a
    [verifyPasswordReset] with the code it drew, made before the expiry
    the request wrote and with no older row of the table matching the
    same digits, returns, sets the password column of that user's rows,
    and of no other row, to the digest of the new password, and marks the
    new row verified; made at or after that expiry it raises
    [UnauthorizedException("Invalid or expired token")] and changes
    nothing.  The expiry is the instant at which the host's wall clock
    shows fifteen minutes more than at the request: 15 minutes after the
    request on a host whose zone offset does not change. *)
Theorem password_reset_flow
    (lib : Libraries) (env1 env2 : Env) (email newPassword : string)
    (db : Store) (user : User)
    (Huser : user_by_email db email = Some user)
    (Hfault1 : ∀ op, fault env1 op = false)
    (Hfault2 : ∀ op, fault env2 op = false)
    (Hothers : ∀ o, o ∈ otpCodes db →
                    otp_where (otp_code_string env1) PASSWORD_RESET
                      (now env2) o = false) :
  ∃ db1,
    requestPasswordReset env1 email db = (Ok tt, db1)
    ∧ (now env2 < otp_expiry env1 →
       ∃ db2,
         verifyPasswordReset lib env2 (otp_code_string env1) newPassword db1
         = (Ok tt, db2)
         ∧ users db2
           = set_fields (user_id user)
               {[ "password" :=
                    VStr (bcrypt_hash lib newPassword (salt env2)) ]}
               (users db)
         ∧ ∃ o, otpCodes db2 = consume (new_id env1 OtpCodeCreate)
                                 (otpCodes db) ++ [o]
                ∧ otp_id o = new_id env1 OtpCodeCreate
                ∧ otp_verified o = true)
    ∧ (otp_expiry env1 ≤ now env2 →
       verifyPasswordReset lib env2 (otp_code_string env1) newPassword db1
       = (Err (UnauthorizedException "Invalid or expired token"), db1))
    ∧ ((∀ t isUTC, local_tza env1 t isUTC = local_tza env1 (now env1) true) →
       otp_expiry env1 = now env1 + 900000).
Proof.
  set (o := otp_row env1
              {| oci_userId := user_id user;
                 oci_code := otp_code_string env1;
                 oci_type := PASSWORD_RESET;
                 oci_expiresAt := otp_expiry env1 |}).
  exists (apply_write db (WOtpCode o)).
  assert (find (otp_where (otp_code_string env1) PASSWORD_RESET (now env2))
               (otpCodes db) = None) as Hnone by by apply find_all_false.
  split; [|split; [|split]].
  - unfold requestPasswordReset. rewrite rethrow_id.
    unfold user_findUnique_email, db_create. unfold_M.
    by rewrite !Hfault1, Huser.
  - intros Hlive.
    assert (otp_where (otp_code_string env1) PASSWORD_RESET (now env2) o
            = true) as Hmatch.
    { apply otp_where_true. repeat split. exact Hlive. }
    rewrite verifyPasswordReset_shape.
    rewrite (verify_otp_run env2 _ _ _ _ _ o); try apply Hfault2.
    + rewrite Hfault2. eexists. split; [reflexivity|]. simpl.
      split; [done|]. exists (mark_verified o).
      unfold consume. rewrite map_app. simpl.
      by rewrite bool_decide_eq_true_2.
    + simpl. rewrite find_app_None by done. cbn [find]. by rewrite Hmatch.
    + simpl. apply find_Some_elem in Huser as [Hin _].
      apply Exists_exists. eauto.
  - intros Hdead. rewrite verifyPasswordReset_shape.
    apply verify_otp_refused; [apply Hfault2|].
    simpl. rewrite find_app_None by done. cbn [find].
    assert (otp_where (otp_code_string env1) PASSWORD_RESET (now env2) o
            = false) as ->; [|done].
    unfold otp_where.
    rewrite (bool_decide_eq_false_2 (now env2 < _)).
    + by rewrite andb_false_r.
    + change (otp_expiresAt o) with (otp_expiry env1). lia.
  - intros Hstable. unfold otp_expiry. cbv zeta.
    rewrite (Hstable (now env1 + local_tza env1 (now env1) true + 15 * 60000)
               false).
    lia.
Qed.

Lemma password_reset_flow_witness :
  ∃ db1,
    requestPasswordReset (Fixture.env_at "x11" 1000000 23456) "a@x.com"
      Fixture.store_alice
    = (Ok tt, db1)
    ∧ (now (Fixture.env_at "x11b" 1600000 0)
       < otp_expiry (Fixture.env_at "x11" 1000000 23456) →
       ∃ db2,
         verifyPasswordReset Fixture.stub_lib
           (Fixture.env_at "x11b" 1600000 0)
           (otp_code_string (Fixture.env_at "x11" 1000000 23456))
           "newpass1" db1
         = (Ok tt, db2)
         ∧ users db2
           = set_fields (user_id Fixture.alice)
               {[ "password" :=
                    VStr (bcrypt_hash Fixture.stub_lib "newpass1"
                            (salt (Fixture.env_at "x11b" 1600000 0))) ]}
               (users Fixture.store_alice)
         ∧ ∃ o, otpCodes db2
                = consume (new_id (Fixture.env_at "x11" 1000000 23456)
                             OtpCodeCreate)
                    (otpCodes Fixture.store_alice) ++ [o]
                ∧ otp_id o
                  = new_id (Fixture.env_at "x11" 1000000 23456) OtpCodeCreate
                ∧ otp_verified o = true)
    ∧ (otp_expiry (Fixture.env_at "x11" 1000000 23456)
       ≤ now (Fixture.env_at "x11b" 1600000 0) →
       verifyPasswordReset Fixture.stub_lib
         (Fixture.env_at "x11b" 1600000 0)
         (otp_code_string (Fixture.env_at "x11" 1000000 23456))
         "newpass1" db1
       = (Err (UnauthorizedException "Invalid or expired token"), db1))
    ∧ ((∀ t isUTC,
          local_tza (Fixture.env_at "x11" 1000000 23456) t isUTC
          = local_tza (Fixture.env_at "x11" 1000000 23456)
              (now (Fixture.env_at "x11" 1000000 23456)) true) →
       otp_expiry (Fixture.env_at "x11" 1000000 23456)
       = now (Fixture.env_at "x11" 1000000 23456) + 900000).
Proof.
  apply (password_reset_flow Fixture.stub_lib
           (Fixture.env_at "x11" 1000000 23456)
           (Fixture.env_at "x11b" 1600000 0) "a@x.com" "newpass1"
           Fixture.store_alice Fixture.alice).
  - vm_compute. reflexivity.
  - intros op. reflexivity.
  - intros op. reflexivity.
  - intros o Ho. simpl in Ho. by apply elem_of_nil in Ho.
Defined.

(** X12. Email verification.  On a store that holds an unverified,
    unexpired email-verification row with the submitted code, whose owner
    has a user row, [verifyEmail] returns when the store carries out its
    calls; it sets [isVerified] to true on every row of the owner, leaves
    the rows of other users as they were, and marks the rows with the id
    of the matched row verified. *)
Theorem email_verification_flow
    (env2 : Env) (code : string) (db : Store) (r : OtpCode)
    (Hfault2 : ∀ op, fault env2 op = false)
    (Hfind : find (otp_where code EMAIL_VERIFICATION (now env2)) (otpCodes db)
             = Some r)
    (Howner : Exists (λ u, user_id u = otp_userId r) (users db)) :
  ∃ db2,
    verifyEmail env2 code db = (Ok tt, db2)
    ∧ users db2
      = set_fields (otp_userId r) {[ "isVerified" := VBool true ]} (users db)
    ∧ otpCodes db2 = consume (otp_id r) (otpCodes db)
    ∧ (∀ u, u ∈ users db2 → user_id u = otp_userId r →
            user_fields u !! "isVerified" = Some (VBool true))
    ∧ (∀ u, u ∈ users db → user_id u ≠ otp_userId r → u ∈ users db2)
    ∧ (∃ u, u ∈ users db2 ∧ user_id u = otp_userId r)
    ∧ r ∈ otpCodes db
    ∧ otp_type r = EMAIL_VERIFICATION
    ∧ now env2 < otp_expiresAt r.
Proof.
  rewrite verifyEmail_shape.
  rewrite (verify_otp_run env2 _ _ _ _ _ r (Hfault2 _) (Hfault2 _) Hfind
             Howner).
  rewrite Hfault2. eexists. split; [reflexivity|]. simpl.
  split; [done|]. split; [done|].
  apply find_Some_elem in Hfind as [Hin Hwhere].
  apply otp_where_true in Hwhere as (_ & Htype & Hlive & _).
  split; [|split; [|split]]; [| | |done].
  - intros u Hu Hid. unfold set_fields in Hu.
    apply list_elem_of_fmap in Hu as (u0 & -> & Hu0).
    destruct (bool_decide (user_id u0 = otp_userId r)) eqn:Hb.
    + simpl. apply lookup_union_Some_l. apply lookup_singleton_eq.
    + apply bool_decide_eq_false in Hb. done.
  - intros u Hu Hid. unfold set_fields.
    apply list_elem_of_fmap. exists u.
    by rewrite bool_decide_eq_false_2.
  - apply Exists_exists in Howner as (u0 & Hu0 & Hid).
    exists (mkUser (user_id u0)
              ({[ "isVerified" := VBool true ]} ∪ user_fields u0)).
    split; [|done]. unfold set_fields.
    apply list_elem_of_fmap. exists u0.
    by rewrite bool_decide_eq_true_2.
Qed.

Lemma email_verification_flow_witness :
  ∃ db2,
    verifyEmail (Fixture.env_at "x12b" 1600000 0) "654321"
      Scenario.store_email_code
    = (Ok tt, db2)
    ∧ users db2
      = set_fields "u1" {[ "isVerified" := VBool true ]}
          (users Scenario.store_email_code)
    ∧ otpCodes db2 = consume "o3" (otpCodes Scenario.store_email_code)
    ∧ ∃ u, u ∈ users db2 ∧ user_id u = "u1"
           ∧ user_fields u !! "isVerified" = Some (VBool true).
Proof.
  destruct (email_verification_flow (Fixture.env_at "x12b" 1600000 0)
              "654321" Scenario.store_email_code
              (mkOtpCode "o3" "u1" "654321" EMAIL_VERIFICATION 1900000 false
                 1000000))
    as (db2 & Hrun & Husers & Hotp & Hset & _ & (u & Hu & Hid) & _).
  - intros op. reflexivity.
  - vm_compute. reflexivity.
  - left. reflexivity.
  - exists db2. split; [exact Hrun|]. split; [exact Husers|].
    split; [exact Hotp|]. exists u. split; [exact Hu|].
    split; [exact Hid|]. by apply Hset.
Defined.

Lemma otp_where_later (code : string) (type : OtpType) (t t' : Z)
    (o : OtpCode) :
  t ≤ t' → otp_where code type t o = false → otp_where code type t' o = false.
Proof.
  intros Ht Hw. destruct (otp_where code type t' o) eqn:Hw'; [|done].
  apply otp_where_true in Hw' as (? & ? & ? & ?).
  assert (otp_where code type t o = true); [|congruence].
  apply otp_where_true. repeat split; try done. lia.
Qed.

Lemma find_otp_later (code : string) (type : OtpType) (t t' : Z)
    (l : list OtpCode) (r : OtpCode) :
  t ≤ t' → t' < otp_expiresAt r →
  find (otp_where code type t) l = Some r →
  find (otp_where code type t') l = Some r.
Proof.
  intros Ht Hexp. induction l as [|x l IH]; simpl; [done|].
  destruct (otp_where code type t x) eqn:Hx.
  - intros [= ->]. apply otp_where_true in Hx as (? & ? & ? & ?).
    assert (otp_where code type t' r = true) as ->; [|done].
    by apply otp_where_true.
  - rewrite (otp_where_later _ _ _ _ _ Ht Hx). exact IH.
Qed.

Lemma set_fields_Exists (id id' : string) (data : obj) (l : list User) :
  Exists (λ u, user_id u = id') l →
  Exists (λ u, user_id u = id') (set_fields id data l).
Proof.
  unfold set_fields. rewrite Exists_fmap. intros H.
  eapply Exists_impl; [exact H|].
  intros u Hu. simpl. by case_bool_decide.
Qed.

(** X13. The two writes of [verifyPasswordReset] are not one unit.  When
    the user update succeeds and the update of the OTP row faults, the
    call raises, yet the password column already holds the digest of the
    new password and the OTP row is still unverified: until its expiry a
    further call with the same code is accepted again. *)
Theorem verifyPasswordReset_not_atomic
    (lib : Libraries) (env env3 : Env) (code newPassword newPassword3 : string)
    (db : Store) (r : OtpCode)
    (Hfind : find (otp_where code PASSWORD_RESET (now env)) (otpCodes db)
             = Some r)
    (Howner : Exists (λ u, user_id u = otp_userId r) (users db))
    (Hread : fault env OtpCodeFindFirst = false)
    (Huser : fault env UserUpdate = false)
    (Hotp : fault env OtpCodeUpdate = true)
    (Hfault3 : ∀ op, fault env3 op = false)
    (Hlater : now env ≤ now env3 < otp_expiresAt r) :
  ∃ db',
    verifyPasswordReset lib env code newPassword db
    = (Err (StorageError OtpCodeUpdate), db')
    ∧ users db'
      = set_fields (otp_userId r)
          {[ "password" := VStr (bcrypt_hash lib newPassword (salt env)) ]}
          (users db)
    ∧ otpCodes db' = otpCodes db
    ∧ ∃ db'', verifyPasswordReset lib env3 code newPassword3 db'
              = (Ok tt, db'').
Proof.
  rewrite !verifyPasswordReset_shape.
  rewrite (verify_otp_run env _ _ _ _ _ _ Hread Huser Hfind Howner), Hotp.
  eexists. split; [reflexivity|]. simpl. split; [done|]. split; [done|].
  erewrite (verify_otp_run env3 _ _ _ _ _ r); try apply Hfault3.
  - rewrite Hfault3. eauto.
  - simpl. apply (find_otp_later _ _ (now env)); [lia..|done].
  - simpl. by apply set_fields_Exists.
Qed.

Lemma verifyPasswordReset_not_atomic_witness :
  ∃ db',
    verifyPasswordReset Fixture.stub_lib
      (Fixture.env_failing OtpCodeUpdate "x13" 1000000 0)
      "123456" "newpass1" Fixture.store_one_code
    = (Err (StorageError OtpCodeUpdate), db')
    ∧ users db'
      = set_fields "u1"
          {[ "password" := VStr (bcrypt_hash Fixture.stub_lib "newpass1"
                                   "salt") ]}
          (users Fixture.store_one_code)
    ∧ otpCodes db' = otpCodes Fixture.store_one_code
    ∧ ∃ db'', verifyPasswordReset Fixture.stub_lib
                (Fixture.env_at "x13b" 1200000 0) "123456" "newpass2" db'
              = (Ok tt, db'').
Proof.
  apply (verifyPasswordReset_not_atomic Fixture.stub_lib
           (Fixture.env_failing OtpCodeUpdate "x13" 1000000 0)
           (Fixture.env_at "x13b" 1200000 0) "123456" "newpass1" "newpass2"
           Fixture.store_one_code
           (mkOtpCode "o1" "u1" "123456" PASSWORD_RESET 1900000 false
              1000000)).
  - vm_compute. reflexivity.
  - apply Exists_cons_hd. reflexivity.
  - reflexivity.
  - reflexivity.
  - reflexivity.
  - intros op. reflexivity.
  - simpl. lia.
Defined.

(** X14. A code is bound to its kind: [verifyEmail] refuses a code all of
    whose rows are of another type than EMAIL_VERIFICATION, for instance
    an outstanding password-reset code, and [verifyPasswordReset] refuses
    a code all of whose rows are of another type than PASSWORD_RESET;
    neither call writes anything. *)
Theorem otp_kinds_do_not_mix
    (lib : Libraries) (env : Env) (code newPassword : string) (db : Store)
    (Hread : fault env OtpCodeFindFirst = false) :
  ((∀ o, o ∈ otpCodes db → otp_code o = code →
         otp_type o ≠ EMAIL_VERIFICATION) →
   verifyEmail env code db
   = (Err (UnauthorizedException "Invalid or expired verification token"),
      db))
  ∧ ((∀ o, o ∈ otpCodes db → otp_code o = code →
           otp_type o ≠ PASSWORD_RESET) →
     verifyPasswordReset lib env code newPassword db
     = (Err (UnauthorizedException "Invalid or expired token"), db)).
Proof.
  assert (∀ type,
            (∀ o, o ∈ otpCodes db → otp_code o = code → otp_type o ≠ type) →
            find (otp_where code type (now env)) (otpCodes db) = None)
    as Hnone.
  { intros type Hkind. apply find_all_false. intros o Ho.
    destruct (otp_where code type (now env) o) eqn:Hw; [|done].
    apply otp_where_true in Hw as (Hc & Ht & _).
    by destruct (Hkind o Ho Hc). }
  split; intros Hkind.
  - rewrite verifyEmail_shape. apply verify_otp_refused; auto.
  - rewrite verifyPasswordReset_shape. apply verify_otp_refused; auto.
Qed.

Lemma otp_kinds_do_not_mix_witness :
  verifyEmail (Fixture.env_at "x14" 1000000 0) "123456"
    Fixture.store_one_code
  = (Err (UnauthorizedException "Invalid or expired verification token"),
     Fixture.store_one_code)
  ∧ verifyPasswordReset Fixture.stub_lib (Fixture.env_at "x14" 1000000 0)
      "654321" "newpass1" Scenario.store_email_code
    = (Err (UnauthorizedException "Invalid or expired token"),
       Scenario.store_email_code).
Proof.
  split.
  - apply (proj1 (otp_kinds_do_not_mix Fixture.stub_lib
                    (Fixture.env_at "x14" 1000000 0) "123456" "unused"
                    Fixture.store_one_code eq_refl)).
    intros o Ho _. simpl in Ho. apply list_elem_of_singleton in Ho as ->.
    done.
  - apply (proj2 (otp_kinds_do_not_mix Fixture.stub_lib
                    (Fixture.env_at "x14" 1000000 0) "654321" "newpass1"
                    Scenario.store_email_code eq_refl)).
    intros o Ho _. simpl in Ho. apply list_elem_of_singleton in Ho as ->.
    done.
Defined.

(** ** OtpService *)

Lemma findValidOtp_eq (env : Env) (userId : string) (type : OtpType)
    (code : string) (db : Store) :
  OtpService.findValidOtp env userId type code db
  = if fault env OtpCodeFindFirst
    then (Err (StorageError OtpCodeFindFirst), db)
    else (Ok (find (λ o, bool_decide (otp_userId o = userId)
                         && otp_where code type (now env) o)
                   (otpCodes db)), db).
Proof.
  unfold OtpService.findValidOtp. rewrite rethrow_id.
  unfold otpCode_findFirst. unfold_M.
  destruct (fault env OtpCodeFindFirst); reflexivity.
Qed.

Lemma markAsVerified_eq (env : Env) (id : string) (db : Store) :
  OtpService.markAsVerified env id db
  = if fault env OtpCodeUpdate then (Err (StorageError OtpCodeUpdate), db)
    else if bool_decide (Exists (λ o, otp_id o = id) (otpCodes db))
    then (Ok true,
          mkStore (users db) (agents db) (corporateUsers db)
                  (consume id (otpCodes db)) (sessions db))
    else (Err (RecordNotFound OtpCodeUpdate), db).
Proof.
  unfold OtpService.markAsVerified. rewrite rethrow_id.
  unfold otpCode_update_verified. unfold_M.
  destruct (fault env OtpCodeUpdate); [reflexivity|].
  case_bool_decide; reflexivity.
Qed.

Lemma consume_rows (id : string) (l : list OtpCode) (o : OtpCode) :
  o ∈ consume id l → otp_verified o = true ∨ (o ∈ l ∧ otp_id o ≠ id).
Proof.
  unfold consume. intros Ho.
  apply list_elem_of_fmap in Ho as (o0 & -> & Ho0).
  case_bool_decide; [by left|by right].
Qed.

(** X15. [OtpService.findValidOtp] is bound to the user: a row it returns
    belongs to the given user, has the given type and code, is unverified
    and unexpired, and the store is not written.  Once [markAsVerified]
    has returned for the id of that row, no [findValidOtp], for whatever
    user, type, code and time, returns a row with that id.
    [markAsVerified] never answers [false]: for an id without a row it
    raises and writes nothing. *)
Theorem otpService_user_bound_single_use
    (env : Env) (userId : string) (type : OtpType) (code : string)
    (db db' : Store) (r : OtpCode)
    (Hfound : OtpService.findValidOtp env userId type code db
              = (Ok (Some r), db')) :
  db' = db
  ∧ r ∈ otpCodes db
  ∧ otp_userId r = userId ∧ otp_type r = type ∧ otp_code r = code
  ∧ otp_verified r = false ∧ now env < otp_expiresAt r
  ∧ (∀ env2 db2,
       OtpService.markAsVerified env2 (otp_id r) db = (Ok true, db2) →
       ∀ env3 userId3 type3 code3 r3 db3,
         OtpService.findValidOtp env3 userId3 type3 code3 db2
         = (Ok (Some r3), db3) →
         otp_id r3 ≠ otp_id r)
  ∧ (∀ env2 id b db2,
       OtpService.markAsVerified env2 id db = (Ok b, db2) → b = true)
  ∧ (∀ env2 id,
       fault env2 OtpCodeUpdate = false →
       ¬ Exists (λ o, otp_id o = id) (otpCodes db) →
       OtpService.markAsVerified env2 id db
       = (Err (RecordNotFound OtpCodeUpdate), db)).
Proof.
  rewrite findValidOtp_eq in Hfound.
  destruct (fault env OtpCodeFindFirst); [congruence|].
  injection Hfound as Hfind <-.
  apply find_Some_elem in Hfind as [Hin Hw].
  apply andb_true_iff in Hw as [Hu Hw]. apply bool_decide_eq_true in Hu.
  apply otp_where_true in Hw as (Hc & Ht & He & Hv).
  repeat split; try done.
  - intros env2 db2 Hmark env3 userId3 type3 code3 r3 db3 Hfind3 Hid.
    rewrite markAsVerified_eq in Hmark.
    destruct (fault env2 OtpCodeUpdate); [congruence|].
    case_bool_decide; [|congruence]. injection Hmark as <-.
    rewrite findValidOtp_eq in Hfind3.
    destruct (fault env3 OtpCodeFindFirst); [congruence|].
    injection Hfind3 as Hfind3 _. simpl in Hfind3.
    apply find_Some_elem in Hfind3 as [Hin3 Hw3].
    apply andb_true_iff in Hw3 as [_ Hw3].
    apply otp_where_true in Hw3 as (_ & _ & _ & Hv3).
    destruct (consume_rows _ _ _ Hin3) as [?|[_ ?]]; congruence.
  - intros env2 id b db2. rewrite markAsVerified_eq.
    destruct (fault env2 OtpCodeUpdate); [congruence|].
    case_bool_decide; congruence.
  - intros env2 id Hf Hno. rewrite markAsVerified_eq, Hf.
    by rewrite bool_decide_eq_false_2.
Qed.

(** X15 on the fixture, where Alice and Bob hold the same digits: the
    lookup for Bob returns Bob's row, not the older row of Alice. *)
Lemma otpService_user_bound_single_use_witness :
  otp_userId (mkOtpCode "o2" "u2" "123456" PASSWORD_RESET 1900500 false
                1000500) = "u2"
  ∧ ∀ env2 db2,
      OtpService.markAsVerified env2 "o2" Fixture.store_same_code
      = (Ok true, db2) →
      ∀ env3 userId3 type3 code3 r3 db3,
        OtpService.findValidOtp env3 userId3 type3 code3 db2
        = (Ok (Some r3), db3) →
        otp_id r3 ≠ "o2".
Proof.
  destruct (otpService_user_bound_single_use
              (Fixture.env_at "x15" 1000000 0) "u2" PASSWORD_RESET "123456"
              Fixture.store_same_code Fixture.store_same_code
              (mkOtpCode "o2" "u2" "123456" PASSWORD_RESET 1900500 false
                 1000500)
              ltac:(vm_compute; reflexivity))
    as (_ & _ & Hu & _ & _ & _ & _ & Honce & _).
  split; [exact Hu|exact Honce].
Defined.

(** ** AuthController *)

Lemma handler_Err {A : Type} (body : M Store A) (passes : error → bool)
    (message : string) (db db' : Store) (e : error) :
  body db = (Err e, db') →
  handler body passes message db
  = (Raise (if passes e then Passed e
            else InternalServerErrorException message), db').
Proof. unfold handler. intros ->. by destruct (passes e). Qed.

Lemma handler_Reply {A : Type} (body : M Store A) (passes : error → bool)
    (message : string) (db db' : Store) (a : A) :
  handler body passes message db = (Reply a, db') ↔ body db = (Ok a, db').
Proof.
  unfold handler. destruct (body db) as [[a'|e] db1].
  - split; intros [= -> ->]; done.
  - destruct (passes e); split; intros [=].
Qed.

Lemma handler_Raise {A : Type} (body : M Store A) (passes : error → bool)
    (message : string) (db db' : Store) (x : HttpException) :
  handler body passes message db = (Raise x, db') →
  x = InternalServerErrorException message
  ∨ ∃ e, x = Passed e ∧ passes e = true ∧ body db = (Err e, db').
Proof.
  unfold handler. destruct (body db) as [[a'|e] db1]; [done|].
  destruct (passes e) eqn:Hp; intros [= <- <-]; eauto.
Qed.

Lemma handler_Raise_only_internal {A : Type} (body : M Store A)
    (passes : error → bool) (message : string) (db db' : Store)
    (x : HttpException) :
  (∀ e, passes e = false) →
  handler body passes message db = (Raise x, db') →
  x = InternalServerErrorException message.
Proof.
  intros Hp H. apply handler_Raise in H as [?|(e & _ & He & _)]; [done|].
  rewrite Hp in He. done.
Qed.

Lemma guard_empty_run (m : M Store string) (message : string)
    (db : Store) :
  (tok ← m;
   if bool_decide (tok = "") then throw (UnauthorizedException message)
   else mret tok) db
  = match m db with
    | (Ok tok, db') =>
        if bool_decide (tok = "")
        then (Err (UnauthorizedException message), db')
        else (Ok tok, db')
    | (Err e, db') => (Err e, db')
    end.
Proof.
  unfold_M. destruct (m db) as [[tok|e] db']; [|done].
  by case_bool_decide.
Qed.

(** X16. The handlers of [POST /auth/login] and [POST /auth/refresh-token]
    let no exception of the service through: whatever the service raises,
    wrong credentials and an invalid token included, the handler raises
    [InternalServerErrorException] with its fixed message, and it raises
    nothing else.  It answers with a token exactly when the service
    returned that token and the token is not the empty string. *)
Theorem login_and_refresh_handlers_hide_the_cause
    (sch : Schema) (lib : Libraries) (env : Env) (db : Store) :
  (∀ email password,
     (∀ x db', AuthController.login sch lib env email password db
               = (Raise x, db') →
               x = InternalServerErrorException "Failed to log in")
     ∧ (∀ e db', login sch lib env email password db = (Err e, db') →
                 AuthController.login sch lib env email password db
                 = (Raise (InternalServerErrorException "Failed to log in"),
                    db'))
     ∧ (∀ tok db', AuthController.login sch lib env email password db
                   = (Reply tok, db')
                   ↔ login sch lib env email password db = (Ok tok, db')
                     ∧ tok ≠ ""))
  ∧ (∀ token,
       (∀ x db', AuthController.refreshToken sch lib env token db
                 = (Raise x, db') →
                 x = InternalServerErrorException "Failed to refresh token")
       ∧ (∀ e db', refreshToken sch lib env token db = (Err e, db') →
                   AuthController.refreshToken sch lib env token db
                   = (Raise (InternalServerErrorException
                               "Failed to refresh token"), db'))
       ∧ (∀ tok db', AuthController.refreshToken sch lib env token db
                     = (Reply tok, db')
                     ↔ refreshToken sch lib env token db = (Ok tok, db')
                       ∧ tok ≠ "")).
Proof.
  assert (∀ (m : M Store string) (msg1 msg2 : string),
            let h := handler
                       (tok ← m;
                        if bool_decide (tok = "")
                        then throw (UnauthorizedException msg1)
                        else mret tok) (λ _, false) msg2 in
            (∀ x db', h db = (Raise x, db') →
                      x = InternalServerErrorException msg2)
            ∧ (∀ e db', m db = (Err e, db') →
                        h db = (Raise (InternalServerErrorException msg2),
                                db'))
            ∧ (∀ tok db', h db = (Reply tok, db')
                          ↔ m db = (Ok tok, db') ∧ tok ≠ "")) as Hgen.
  { intros m msg1 msg2 h. subst h. split; [|split].
    - intros x db'. by apply handler_Raise_only_internal.
    - intros e db' He. erewrite handler_Err; [reflexivity|].
      by rewrite guard_empty_run, He.
    - intros tok db'. rewrite handler_Reply, guard_empty_run.
      destruct (m db) as [[tok'|e] db1]; [|split; [done|intros [[=] _]]].
      case_bool_decide as Hempty.
      + split; [done|]. intros [[= -> ->] Hne]. done.
      + split; [intros [= -> ->]; done|]. by intros [[= -> ->] _]. }
  split.
  - intros email password. apply Hgen.
  - intros token. apply Hgen.
Qed.

(** X16 on the fixture: a wrong password and an unknown email are both
    answered with the internal error. *)
Lemma login_and_refresh_handlers_hide_the_cause_witness :
  AuthController.login Fixture.lenient_schema Fixture.stub_lib
    (Fixture.env_at "x16" 1000000 0) "a@x.com" "wrong" Fixture.store_alice
  = (Raise (InternalServerErrorException "Failed to log in"),
     Fixture.store_alice)
  ∧ AuthController.refreshToken Fixture.lenient_schema Fixture.stub_lib
      (Fixture.env_at "x16" 1000000 0) "garbage" Fixture.store_alice
    = (Raise (InternalServerErrorException "Failed to refresh token"),
       Fixture.store_alice).
Proof.
  destruct (login_and_refresh_handlers_hide_the_cause Fixture.lenient_schema
              Fixture.stub_lib (Fixture.env_at "x16" 1000000 0)
              Fixture.store_alice) as [Hlogin Hrefresh].
  split.
  - apply (proj1 (proj2 (Hlogin "a@x.com" "wrong"))
             (UnauthorizedException "Invalid credentials")).
    vm_compute. reflexivity.
  - apply (proj1 (proj2 (Hrefresh "garbage"))
             (UnauthorizedException "Invalid or expired token")).
    vm_compute. reflexivity.
Defined.

(** X17. The handler of [PUT /auth/change-password] lets an
    [UnauthorizedException] of the service through and turns every other
    exception into
    [InternalServerErrorException("Failed to change password")]: a wrong
    old password is answered with
    [UnauthorizedException("Invalid credentials")], while a token that
    does not verify, for which the service raises the jsonwebtoken error,
    is answered with the internal error. *)
Theorem changePassword_handler
    (lib : Libraries) (env : Env) (token oldPassword newPassword : string)
    (db : Store) :
  (¬ token_valid lib token (now env) →
   AuthController.changePassword lib env token oldPassword newPassword db
   = (Raise (InternalServerErrorException "Failed to change password"), db))
  ∧ (∀ decoded user h,
       jwt_verify lib token (now env) = Ok decoded →
       fault env UserFindUnique = false →
       user_by_id db (jwt_userId decoded) = Some user →
       user_fields user !! "password" = Some (VStr h) →
       bcrypt_compare lib oldPassword h = false →
       AuthController.changePassword lib env token oldPassword newPassword db
       = (Raise (Passed (UnauthorizedException "Invalid credentials")), db))
  ∧ (∀ x db',
       AuthController.changePassword lib env token oldPassword newPassword db
       = (Raise x, db') →
       x = InternalServerErrorException "Failed to change password"
       ∨ x = Passed (UnauthorizedException "Invalid credentials"))
  ∧ (∀ db',
       AuthController.changePassword lib env token oldPassword newPassword db
       = (Reply tt, db')
       ↔ changePassword lib env token oldPassword newPassword db
         = (Ok tt, db')).
Proof.
  unfold AuthController.changePassword. split; [|split; [|split]].
  - intros Hinvalid.
    destruct (jwt_verify lib token (now env)) as [p|e] eqn:Hv.
    { exfalso. apply Hinvalid. exists p. by apply jwt_verify_Ok. }
    assert (changePassword lib env token oldPassword newPassword db
            = (Err e, db)) as He by by rewrite changePassword_eq, Hv.
    rewrite (handler_Err _ _ _ _ _ _ He).
    by destruct (jwt_verify_Err _ _ _ _ Hv) as [[-> | ->] _].
  - intros decoded user h Hv Hread Hu Hpw Hcmp.
    assert (changePassword lib env token oldPassword newPassword db
            = (Err (UnauthorizedException "Invalid credentials"), db))
      as He.
    { rewrite changePassword_eq, Hv, Hread, Hu. unfold bcrypt_compare_js.
      by rewrite Hpw, Hcmp. }
    by rewrite (handler_Err _ _ _ _ _ _ He).
  - intros x db' Hraise.
    apply handler_Raise in Hraise as [?|(e & -> & Hinst & He)]; [by left|].
    right. destruct e; try done.
    revert He. rewrite changePassword_eq.
    destruct (jwt_verify lib token (now env)) as [p|e'] eqn:Hv.
    + destruct (fault env UserFindUnique); [congruence|].
      destruct (user_by_id db (jwt_userId p)); [|congruence].
      unfold bcrypt_compare_js.
      destruct (user_fields u !! "password") as [[h| | |]|]; try congruence.
      destruct (bcrypt_compare lib oldPassword h); [|congruence].
      unfold user_update. unfold_M.
      destruct (fault env UserUpdate); [congruence|].
      case_bool_decide; congruence.
    + intros [= -> ->].
      by destruct (jwt_verify_Err _ _ _ _ Hv) as [[?|?] _].
  - intros db'. apply handler_Reply.
Qed.

Lemma changePassword_handler_witness :
  AuthController.changePassword Fixture.stub_lib
    (Fixture.env_at "x17" 2000000 0) "garbage" "secret123" "newpass1"
    Fixture.store_alice
  = (Raise (InternalServerErrorException "Failed to change password"),
     Fixture.store_alice)
  ∧ AuthController.changePassword Fixture.stub_lib
      (Fixture.env_at "x17" 2000000 0) "u1.1000" "wrong" "newpass1"
      Fixture.store_alice
    = (Raise (Passed (UnauthorizedException "Invalid credentials")),
       Fixture.store_alice).
Proof.
  split.
  - apply (proj1 (changePassword_handler Fixture.stub_lib
                    (Fixture.env_at "x17" 2000000 0) "garbage" "secret123"
                    "newpass1" Fixture.store_alice)).
    intros [p [Hp _]]. vm_compute in Hp. discriminate.
  - apply (proj1 (proj2 (changePassword_handler Fixture.stub_lib
                    (Fixture.env_at "x17" 2000000 0) "u1.1000" "wrong"
                    "newpass1" Fixture.store_alice))
             (mkJwtPayload "u1" 1000 (Some 4600)) Fixture.alice
             "$2b$10$secret123");
      vm_compute; reflexivity.
Defined.

(** X18. The handlers of [POST /auth/verify-email],
    [POST /auth/verify-password-reset] and [POST /auth/register] let only
    a [BadRequestException] through, and the service raises none: each of
    them raises nothing but [InternalServerErrorException] with its fixed
    message.  In particular a code that matches no unexpired, unverified
    row, for which the service raises an [UnauthorizedException], is
    answered with the internal error, and nothing is written. *)
Theorem otp_and_register_handlers_raise_only_internal
    (sch : Schema) (lib : Libraries) (env : Env) (db : Store) :
  (∀ code x db',
     AuthController.verifyEmail env code db = (Raise x, db') →
     x = InternalServerErrorException "Failed to verify email")
  ∧ (∀ code newPassword x db',
       AuthController.verifyPasswordReset lib env code newPassword db
       = (Raise x, db') →
       x = InternalServerErrorException "Failed to verify password reset")
  ∧ (∀ registerDto x db',
       AuthController.register sch lib env registerDto db = (Raise x, db') →
       x = InternalServerErrorException "Registration failed")
  ∧ (∀ code,
       fault env OtpCodeFindFirst = false →
       find (otp_where code EMAIL_VERIFICATION (now env)) (otpCodes db)
       = None →
       AuthController.verifyEmail env code db
       = (Raise (InternalServerErrorException "Failed to verify email"), db))
  ∧ (∀ code newPassword,
       fault env OtpCodeFindFirst = false →
       find (otp_where code PASSWORD_RESET (now env)) (otpCodes db) = None →
       AuthController.verifyPasswordReset lib env code newPassword db
       = (Raise (InternalServerErrorException
                   "Failed to verify password reset"), db)).
Proof.
  split; [|split; [|split; [|split]]].
  - intros code x db'. by apply handler_Raise_only_internal.
  - intros code np x db'. by apply handler_Raise_only_internal.
  - intros dto x db'. by apply handler_Raise_only_internal.
  - intros code Hf Hnone. unfold AuthController.verifyEmail.
    erewrite handler_Err; [reflexivity|].
    rewrite verifyEmail_shape. by apply verify_otp_refused.
  - intros code np Hf Hnone. unfold AuthController.verifyPasswordReset.
    erewrite handler_Err; [reflexivity|].
    rewrite verifyPasswordReset_shape. by apply verify_otp_refused.
Qed.

Lemma otp_and_register_handlers_raise_only_internal_witness :
  AuthController.verifyEmail (Fixture.env_at "x18" 1000000 0) "000000"
    Scenario.store_email_code
  = (Raise (InternalServerErrorException "Failed to verify email"),
     Scenario.store_email_code)
  ∧ AuthController.verifyPasswordReset Fixture.stub_lib
      (Fixture.env_at "x18" 2000000 0) "123456" "newpass1"
      Fixture.store_one_code
    = (Raise (InternalServerErrorException "Failed to verify password reset"),
       Fixture.store_one_code).
Proof.
  split.
  - apply (proj1 (proj2 (proj2 (proj2
             (otp_and_register_handlers_raise_only_internal
                Fixture.lenient_schema Fixture.stub_lib
                (Fixture.env_at "x18" 1000000 0)
                Scenario.store_email_code)))) "000000");
      vm_compute; reflexivity.
  - apply (proj2 (proj2 (proj2 (proj2
             (otp_and_register_handlers_raise_only_internal
                Fixture.lenient_schema Fixture.stub_lib
                (Fixture.env_at "x18" 2000000 0)
                Fixture.store_one_code)))) "123456" "newpass1");
      vm_compute; reflexivity.
Defined.

(** X19. The handler of [POST /auth/logout] never raises: on every token
    and every store, faulting or not, it answers, and the store is the one
    the service's logout leaves. *)
Theorem logout_handler_always_replies
    (env : Env) (token : string) (db : Store) :
  AuthController.logout env token db
  = (Reply tt, snd (logout env token db))
  ∧ ∀ x db', AuthController.logout env token db ≠ (Raise x, db').
Proof.
  unfold AuthController.logout, handler. rewrite logout_eq. simpl.
  split; [done|]. intros x db'. done.
Qed.

(** X20. The handler of [POST /auth/reset-password-request] gives the same
    answer for an email no user has as for the email of a user: it
    replies without a value in both cases, writing nothing in the first
    and one OTP row in the second; when it raises, it raises
    [InternalServerErrorException("Failed to request password reset")]. *)
Theorem requestPasswordReset_handler_same_answer
    (env : Env) (email : string) (db : Store)
    (Hread : fault env UserFindUnique = false)
    (Hinsert : fault env OtpCodeCreate = false) :
  (∃ db', AuthController.requestPasswordReset env email db = (Reply tt, db')
          ∧ match user_by_email db email with
            | None => db' = db
            | Some user =>
                ∃ o, otpCodes db' = otpCodes db ++ [o]
                     ∧ otp_userId o = user_id user
                     ∧ otp_type o = PASSWORD_RESET
            end)
  ∧ ∀ env2 email2 db2 x db',
      AuthController.requestPasswordReset env2 email2 db2 = (Raise x, db') →
      x = InternalServerErrorException "Failed to request password reset".
Proof.
  split.
  - destruct (requestPasswordReset_run env email db Hread) as [Hnone Hsome].
    destruct (user_by_email db email) as [user|] eqn:Hu.
    + eexists. split; [apply handler_Reply; by apply Hsome|].
      eexists. split; [reflexivity|]. done.
    + exists db. split; [apply handler_Reply; by apply Hnone|done].
  - intros env2 email2 db2 x db'. by apply handler_Raise_only_internal.
Qed.

Lemma requestPasswordReset_handler_same_answer_witness :
  (∃ db', AuthController.requestPasswordReset
            (Fixture.env_at "x20" 1000000 23456) "nobody@x.com"
            Fixture.store_alice
          = (Reply tt, db')
          ∧ match user_by_email Fixture.store_alice "nobody@x.com" with
            | None => db' = Fixture.store_alice
            | Some user =>
                ∃ o, otpCodes db' = otpCodes Fixture.store_alice ++ [o]
                     ∧ otp_userId o = user_id user
                     ∧ otp_type o = PASSWORD_RESET
            end)
  ∧ (∃ db', AuthController.requestPasswordReset
              (Fixture.env_at "x20" 1000000 23456) "a@x.com"
              Fixture.store_alice
            = (Reply tt, db')
            ∧ match user_by_email Fixture.store_alice "a@x.com" with
              | None => db' = Fixture.store_alice
              | Some user =>
                  ∃ o, otpCodes db' = otpCodes Fixture.store_alice ++ [o]
                       ∧ otp_userId o = user_id user
                       ∧ otp_type o = PASSWORD_RESET
              end).
Proof.
  split.
  - apply (proj1 (requestPasswordReset_handler_same_answer
                    (Fixture.env_at "x20" 1000000 23456) "nobody@x.com"
                    Fixture.store_alice eq_refl eq_refl)).
  - apply (proj1 (requestPasswordReset_handler_same_answer
                    (Fixture.env_at "x20" 1000000 23456) "a@x.com"
                    Fixture.store_alice eq_refl eq_refl)).
Defined.
